(** * Gatekeeper: connection supervision and command dispatch

    A shallow embedding of [src/main.cpp] (ESP32 firmware driving a gate
    remote from MQTT commands).  The firmware is a single task that talks
    to three libraries (serial console, Ethernet, PubSubClient) and one
    output pin.  Every library call is an event of type [Ev R] whose answer
    of type [R] is chosen by the environment; a procedure of the firmware is
    a finite tree of such calls ([Prog]).  Running a tree against a handler
    yields the sequence of calls with their answers (the trace), the way the
    procedure ended, and the final state of the environment. *)

From Stdlib Require Import ZArith NArith List String Ascii Bool Lia.
From Stdlib Require Import Init.Byte.
Import ListNotations.

Local Open Scope string_scope.
Local Open Scope list_scope.
Local Open Scope Z_scope.

Set Implicit Arguments.

(** ** Data model *)

(** Logic levels of [digitalWrite]. *)
Inductive Level : Type := LOW | HIGH.

(** The network events [NetworkEvent] distinguishes.  Every other
    enumerator of the SDK's event type falls into the [default] label of
    the switch and is kept with its numeric identifier. *)
Inductive WiFiEvent_t : Type :=
| ARDUINO_EVENT_ETH_START
| ARDUINO_EVENT_ETH_CONNECTED
| ARDUINO_EVENT_ETH_GOT_IP
| ARDUINO_EVENT_ETH_DISCONNECTED
| ARDUINO_EVENT_ETH_STOP
| ARDUINO_EVENT_OTHER (id : Z).

(** A message as PubSubClient hands it to the callback: topic, pointer to
    the payload bytes, and their count. *)
Record Message : Type := mkMessage {
  msg_topic : string;
  msg_payload : list byte;
  msg_length : N
}.

(** The global variables of the firmware that its own code writes. *)
Record Globals : Type := mkGlobals {
  eth_connected : bool
}.

(** ** Global constants *)

Definition MQTT_CLIENT_ID : string := "gatekeeper".
Definition MQTT_SERVER : string := "mosquitto.moerman.online".
Definition MQTT_PORT : Z := 1883.
Definition MQTT_TOPIC : string := "control/gate".
Definition CONNECT_WAIT : Z := 30.
Definition GATE_GPIO : Z := 15.

(** ** Library calls *)

Inductive Ev : Type -> Type :=
(* Serial console *)
| SerialBegin (baud : Z) : Ev unit
| SerialPrint (s : string) : Ev unit
| SerialPrintln (s : string) : Ev unit
| SerialPrintChar (c : byte) : Ev unit
| SerialPrintNum (n : Z) : Ev unit
| SerialPrintlnNum (n : Z) : Ev unit
(* Arduino core *)
| Delay (ms : Z) : Ev unit
| Yield : Ev unit
| PinModeOutput (pin : Z) : Ev unit
| DigitalWrite (pin : Z) (level : Level) : Ev unit
(* WiFi / ETH *)
| WiFiOnEvent : Ev unit
| EthBegin : Ev bool
| EthSetHostname (name : string) : Ev bool
| EthMacAddress : Ev string
| EthLocalIP : Ev string
| EthFullDuplex : Ev bool
| EthLinkSpeed : Ev Z
| NetPending : Ev (list WiFiEvent_t)
(* PubSubClient *)
| MqttSetClient : Ev unit
| MqttSetServer (host : string) (port : Z) : Ev unit
| MqttSetCallback : Ev unit
| MqttConnected : Ev bool
| MqttConnect (id : string) : Ev bool
| MqttState : Ev Z
| MqttSubscribe (topic : string) : Ev bool
| MqttLoop : Ev (option Message * bool)
(* ArduinoOTA *)
| OtaSetPort (port : Z) : Ev unit
| OtaSetHostname (name : string) : Ev unit
| OtaOnStart : Ev unit
| OtaOnEnd : Ev unit
| OtaOnProgress : Ev unit
| OtaOnError : Ev unit
| OtaBegin : Ev unit
| OtaHandle : Ev unit.

(** [NetPending] is the one event that is no library call.  The observer
    [NetworkEvent] runs on the network event task, and the main task sees
    it only through [eth_connected]; the answer of [NetPending] is the list
    of events that task has dispatched to the observer since the main task
    last looked at the flag.

    [MqttLoop] answers with the message the client read during this call,
    if any (PubSubClient reads at most one packet per call and invokes the
    installed callback on it before returning), and with the value
    [loop()] returns. *)

(** Ways a procedure ends without returning to its caller. *)
Inductive StopReason : Type :=
| Restarted                 (* ESP.restart() *)
| OutOfBounds (index : nat) (* read past the end of a buffer *)
| LoopFuel.                 (* iteration bound of the model exceeded *)

(** ** Procedures as trees of library calls *)

Inductive Prog (A : Type) : Type :=
| Ret (a : A)
| Stop (s : StopReason)
| Vis (R : Type) (e : Ev R) (k : R -> Prog A).

Arguments Stop {A} s.
Arguments Vis {A R} e k.

Fixpoint bind {A B : Type} (p : Prog A) (f : A -> Prog B) : Prog B :=
  match p with
  | Ret a => f a
  | Stop s => Stop s
  | Vis e k => Vis e (fun r => bind (k r) f)
  end.

Definition trigger {R : Type} (e : Ev R) : Prog R := Vis e (fun r => Ret r).

Declare Scope prog_scope.
Delimit Scope prog_scope with prog.
Notation "x <- p ;; q" := (bind p (fun x => q))
  (at level 61, p at next level, right associativity) : prog_scope.
Notation "p ;; q" := (bind p (fun _ => q))
  (at level 61, right associativity) : prog_scope.
Local Open Scope prog_scope.

(** One library call together with the answer it got. *)
Inductive Obs : Type :=
| Ob (R : Type) (e : Ev R) (r : R).

Arguments Ob {R} e r.

Inductive Outcome (A : Type) : Type :=
| Returned (a : A)
| Stopped (s : StopReason).

Arguments Stopped {A} s.

Record Run (A W : Type) : Type := mkRun {
  trace : list Obs;
  outcome : Outcome A;
  world : W
}.

Definition Handler (W : Type) : Type := forall R : Type, Ev R -> W -> R * W.

Fixpoint run {A W : Type} (h : Handler W) (p : Prog A) (w : W) : Run A W :=
  match p with
  | Ret a => mkRun [] (Returned a) w
  | Stop s => mkRun [] (Stopped s) w
  | Vis e k =>
      let rw := h _ e w in
      let r := run h (k (fst rw)) (snd rw) in
      mkRun (Ob e (fst rw) :: trace r) (outcome r) (world r)
  end.

(** ** The firmware *)

Module Firmware.


(** Shorthands for the calls the source makes. *)
Definition Serial_print (s : string) : Prog unit := trigger (SerialPrint s).
Definition Serial_println (s : string) : Prog unit := trigger (SerialPrintln s).
Definition delay (ms : Z) : Prog unit := trigger (Delay ms).
Definition digitalWrite (pin : Z) (level : Level) : Prog unit :=
  trigger (DigitalWrite pin level).

(** [ESP.restart()] does not return. *)
Definition ESP_restart {A : Type} : Prog A := Stop Restarted.

(** [buf[i]]: defined only inside the buffer. *)
Definition read_byte (buf : list byte) (i : nat) : Prog byte :=
  match nth_error buf i with
  | Some b => Ret b
  | None => Stop (OutOfBounds i)
  end.

(** *** NetworkEvent (lines 100-140); [ETH_DEBUG] is not defined. *)
Definition NetworkEvent (event : WiFiEvent_t) (g : Globals) : Prog Globals :=
  match event with
  | ARDUINO_EVENT_ETH_START =>
      _ <- trigger (EthSetHostname MQTT_CLIENT_ID) ;;
      Ret g
  | ARDUINO_EVENT_ETH_CONNECTED =>
      Ret g
  | ARDUINO_EVENT_ETH_GOT_IP =>
      Serial_print "ETH MAC: " ;;
      mac <- trigger EthMacAddress ;;
      Serial_print mac ;;
      Serial_print ", IPv4: " ;;
      ip <- trigger EthLocalIP ;;
      Serial_print ip ;;
      fdx <- trigger EthFullDuplex ;;
      (if fdx then Serial_print ", FDX, " else Serial_print ", HDX, ") ;;
      speed <- trigger EthLinkSpeed ;;
      trigger (SerialPrintNum speed) ;;
      Serial_println " Mbps" ;;
      Ret {| eth_connected := true |}
  | ARDUINO_EVENT_ETH_DISCONNECTED =>
      Serial_println "ETH disconnected" ;;
      Ret {| eth_connected := false |}
  | ARDUINO_EVENT_ETH_STOP =>
      Serial_println "ETH stopped" ;;
      Ret {| eth_connected := false |}
  | ARDUINO_EVENT_OTHER id =>
      Serial_print "ETH unknown event: " ;;
      trigger (SerialPrintlnNum id) ;;
      Ret g
  end.

(** The observer applied to a batch of dispatched events, in order. *)
Fixpoint dispatch (events : list WiFiEvent_t) (g : Globals) : Prog Globals :=
  match events with
  | [] => Ret g
  | event :: events' => g' <- NetworkEvent event g ;; dispatch events' g'
  end.

(** Bring [eth_connected] up to date before the main task reads it. *)
Definition sync_link (g : Globals) : Prog Globals :=
  events <- trigger NetPending ;;
  dispatch events g.

(** *** SetupNetwork (lines 154-178)

    [wait_connected] is the [while (!eth_connected)] loop; [nWait] is the
    source's [int] counter, and [fuel] bounds the number of iterations the
    model unfolds. *)
Fixpoint wait_connected (fuel : nat) (nWait : Z) (g : Globals) : Prog Globals :=
  g <- sync_link g ;;
  if negb (eth_connected g) then
    match fuel with
    | O => Stop LoopFuel
    | S fuel' =>
        delay 1000 ;;
        Serial_print "." ;;
        let nWait := nWait - 1 in
        if (nWait =? 0)%Z then
          Serial_println "." ;;
          Serial_println "Connection Failed! Rebooting..." ;;
          ESP_restart
        else
          wait_connected fuel' nWait g
    end
  else Ret g.

Definition SetupNetwork (g : Globals) : Prog Globals :=
  delay 100 ;;
  Serial_print "Connecting network" ;;
  trigger WiFiOnEvent ;;
  _ <- trigger EthBegin ;;
  g <- wait_connected (Z.to_nat CONNECT_WAIT) CONNECT_WAIT g ;;
  Serial_println "." ;;
  Ret g.

(** *** MqttCallback (lines 191-226); [MQTT_DEBUG] is defined. *)

(** [for (int i=0;i<length;i++) Serial.print((char)payload[i]);] with
    [count] iterations left. *)
Fixpoint print_payload (payload : list byte) (i : nat) (count : nat) : Prog unit :=
  match count with
  | O => Ret tt
  | S count' =>
      c <- read_byte payload i ;;
      trigger (SerialPrintChar c) ;;
      print_payload payload (S i) count'
  end.

Definition MqttCallback (topic : string) (payload : list byte) (length : N)
  : Prog unit :=
  Serial_print "New message arrived [" ;;
  Serial_print topic ;;
  Serial_print "] " ;;
  print_payload payload 0 (N.to_nat length) ;;
  Serial_println "" ;;
  c <- read_byte payload 0 ;;
  match c with
  | "0"%byte =>
      Serial_println "Received command 0 - PORT LO" ;;
      digitalWrite GATE_GPIO LOW
  | "1"%byte =>
      Serial_println "Received command 1 - TOGGLE HI/LO" ;;
      digitalWrite GATE_GPIO HIGH ;;
      delay 750 ;;
      digitalWrite GATE_GPIO LOW
  | "9"%byte =>
      Serial_println "Received command 9 - RESET" ;;
      ESP_restart
  | _ =>
      Serial_print "Received unknown command: " ;;
      trigger (SerialPrintlnNum (Z.of_N (Byte.to_N c)))
  end.

(** *** ConnectMqtt (lines 239-281); [MQTT_DEBUG] is defined.

    [connect_loop] is [for (int nLoop = 0; nLoop < 5; ++nLoop)]. *)
Fixpoint connect_loop (fuel : nat) (nLoop : Z) : Prog bool :=
  if (nLoop <? 5)%Z then
    match fuel with
    | O => Stop LoopFuel
    | S fuel' =>
        ok <- trigger (MqttConnect MQTT_CLIENT_ID) ;;
        if ok then
          Serial_print "connected as " ;;
          Serial_print MQTT_CLIENT_ID ;;
          Ret true
        else
          Serial_print "failed, rc=" ;;
          rc <- trigger MqttState ;;
          trigger (SerialPrintNum rc) ;;
          Serial_println "" ;;
          trigger Yield ;;
          delay 2000 ;;
          connect_loop fuel' (nLoop + 1)
    end
  else Ret false.

Definition ConnectMqtt : Prog bool :=
  alive <- trigger MqttConnected ;;
  if negb alive then
    Serial_print "Setup MQTT..." ;;
    connect_loop 5 0
  else
    Serial_println "MQTT connecting alive" ;;
    Ret true.

(** *** SetupMQTT (lines 295-306) *)
Definition SetupMQTT : Prog unit :=
  trigger MqttSetClient ;;
  trigger (MqttSetServer MQTT_SERVER MQTT_PORT) ;;
  _ <- ConnectMqtt ;;
  trigger MqttSetCallback ;;
  _ <- trigger (MqttSubscribe MQTT_TOPIC) ;;
  Serial_print "Subscribed to topic " ;;
  Serial_println MQTT_TOPIC.



(** *** loop (lines 394-400)

    [hMqttClient.loop()]: the client hands the message it read, if any,
    to the installed callback and then returns. *)
Definition hMqttClient_loop : Prog bool :=
  r <- trigger MqttLoop ;;
  match fst r with
  | Some m => MqttCallback (msg_topic m) (msg_payload m) (msg_length m)
  | None => Ret tt
  end ;;
  Ret (snd r).

Definition loop : Prog unit :=
  alive <- hMqttClient_loop ;;
  (if negb alive then _ <- ConnectMqtt ;; Ret tt else Ret tt) ;;
  trigger OtaHandle.

End Firmware.

Import Firmware.

(** ** Reading traces *)

(** Calls that only write to the serial console. *)
Definition is_console {R : Type} (e : Ev R) : bool :=
  match e with
  | SerialBegin _ | SerialPrint _ | SerialPrintln _ | SerialPrintChar _
  | SerialPrintNum _ | SerialPrintlnNum _ => true
  | _ => false
  end.

Definition is_console_ob (o : Obs) : bool :=
  match o with Ob e _ => is_console e end.

(** The trace without its console output. *)
Definition effects (t : list Obs) : list Obs :=
  filter (fun o => negb (is_console_ob o)) t.

(** The bytes written to the console one character at a time. *)
Fixpoint echoed (t : list Obs) : list byte :=
  match t with
  | [] => []
  | Ob (SerialPrintChar c) _ :: t' => c :: echoed t'
  | _ :: t' => echoed t'
  end.

(** Number of calls in a trace that satisfy [p]. *)
Definition count (p : forall R : Type, Ev R -> bool) (t : list Obs) : nat :=
  List.length (filter (fun o => match o with Ob e _ => p _ e end) t).

Definition is_subscribe (R : Type) (e : Ev R) : bool :=
  match e with MqttSubscribe _ => true | _ => false end.
Definition is_connect (R : Type) (e : Ev R) : bool :=
  match e with MqttConnect _ => true | _ => false end.
Definition is_connected_query (R : Type) (e : Ev R) : bool :=
  match e with MqttConnected => true | _ => false end.
Definition is_ota_handle (R : Type) (e : Ev R) : bool :=
  match e with OtaHandle => true | _ => false end.
Definition is_delay (R : Type) (e : Ev R) : bool :=
  match e with Delay _ => true | _ => false end.

(** One-second waits, as [SetupNetwork] makes them. *)
Definition is_tick (R : Type) (e : Ev R) : bool :=
  match e with Delay ms => (ms =? 1000)%Z | _ => false end.

(** ** Environments used for concrete runs *)

(** An answer for every call: success for configuration calls, failure
    for every query about the link or the session. *)
Definition default_answer {R : Type} (e : Ev R) : R :=
  match e in Ev R return R with
  | SerialBegin _ | SerialPrint _ | SerialPrintln _ | SerialPrintChar _
  | SerialPrintNum _ | SerialPrintlnNum _ => tt
  | Delay _ | Yield | PinModeOutput _ | DigitalWrite _ _ => tt
  | WiFiOnEvent => tt
  | EthBegin => true
  | EthSetHostname _ => true
  | EthMacAddress => "A8:03:2A:00:00:01"
  | EthLocalIP => "192.168.1.50"
  | EthFullDuplex => true
  | EthLinkSpeed => 100
  | NetPending => []
  | MqttSetClient | MqttSetServer _ _ | MqttSetCallback => tt
  | MqttConnected => false
  | MqttConnect _ => false
  | MqttState => -2
  | MqttSubscribe _ => false
  | MqttLoop => (None, false)
  | OtaSetPort _ | OtaSetHostname _ | OtaOnStart | OtaOnEnd
  | OtaOnProgress | OtaOnError | OtaBegin | OtaHandle => tt
  end.

(** No link, no broker, no state. *)
Definition offline : Handler unit := fun R e w => (default_answer e, w).

(** The broker is reachable and the session alive; no message arrives. *)
Definition online : Handler unit := fun R e w =>
  match e in Ev R return R * unit with
  | MqttConnected => (true, w)
  | MqttConnect _ => (true, w)
  | MqttSubscribe _ => (true, w)
  | MqttLoop => ((None, true), w)
  | e' => (default_answer e', w)
  end.

(** A dead session whose connect attempts succeed or fail as scripted
    (failure once the script is used up). *)
Definition scripted : Handler (list bool) := fun R e w =>
  match e in Ev R return R * list bool with
  | MqttConnect _ =>
      match w with
      | ok :: w' => (ok, w')
      | [] => (false, [])
      end
  | e' => (default_answer e', w)
  end.

(** The session is alive and the client has just read one message. *)
Definition delivering (m : Message) : Handler unit := fun R e w =>
  match e in Ev R return R * unit with
  | MqttConnected => (true, w)
  | MqttLoop => ((Some m, true), w)
  | e' => (default_answer e', w)
  end.

(** A link with a clock: [now] counts the milliseconds the main task has
    spent in [delay] since boot, and [arrivals] lists the network events
    still to be dispatched, each with the time at which the event task
    dispatches it. *)
Record LinkWorld : Type := mkLinkWorld {
  now : Z;
  arrivals : list (Z * WiFiEvent_t)
}.

Definition is_due (w : LinkWorld) (a : Z * WiFiEvent_t) : bool :=
  (fst a <=? now w)%Z.

Definition timed_link : Handler LinkWorld := fun R e w =>
  match e in Ev R return R * LinkWorld with
  | Delay ms => (tt, mkLinkWorld (now w + ms) (arrivals w))
  | NetPending =>
      (map snd (filter (is_due w) (arrivals w)),
       mkLinkWorld (now w) (filter (fun a => negb (is_due w a)) (arrivals w)))
  | e' => (default_answer e', w)
  end.

(** The flag before any network event, and a link whose only event is the
    acquisition of the address [T] milliseconds after boot. *)
Definition link_down : Globals := {| eth_connected := false |}.
Definition address_at (T : Z) : list (Z * WiFiEvent_t) :=
  [(T, ARDUINO_EVENT_ETH_GOT_IP)].

(** [n] calls of [p] in a row, with their results. *)
Fixpoint calls {A : Type} (n : nat) (p : Prog A) : Prog (list A) :=
  match n with
  | O => Ret []
  | S n' => a <- p ;; rest <- calls n' p ;; Ret (a :: rest)
  end.

(** Payloads used in examples. *)
Definition payload_0 : list byte := ["0"%byte].
Definition payload_1 : list byte := ["1"%byte].
Definition payload_9xyz : list byte := ["9"%byte; "x"%byte; "y"%byte; "z"%byte].
Definition payload_9abc : list byte := ["9"%byte; "a"%byte; "b"%byte; "c"%byte].
Definition payload_open : list byte := ["o"%byte; "p"%byte; "e"%byte; "n"%byte].

(** The names passed to [ETH.setHostname]. *)
Fixpoint hostnames (t : list Obs) : list string :=
  match t with
  | [] => []
  | Ob (EthSetHostname name) _ :: t' => name :: hostnames t'
  | _ :: t' => hostnames t'
  end.

(** The topics passed to [subscribe]. *)
Fixpoint subscriptions (t : list Obs) : list string :=
  match t with
  | [] => []
  | Ob (MqttSubscribe topic) _ :: t' => topic :: subscriptions t'
  | _ :: t' => subscriptions t'
  end.

(** Calls that drive the gate pin or block the task. *)
Definition is_actuation {R : Type} (e : Ev R) : bool :=
  match e with
  | DigitalWrite _ _ | Delay _ => true
  | _ => false
  end.

(** One failed connect attempt as [ConnectMqtt] performs it, console
    output aside: the attempt, the query of the result code that gets
    logged, and the pause. *)
Definition failed_round (rc : Z) : list Obs :=
  [Ob (MqttConnect MQTT_CLIENT_ID) false; Ob MqttState rc; Ob Yield tt;
   Ob (Delay 2000) tt].

Definition connect_ok : Obs := Ob (MqttConnect MQTT_CLIENT_ID) true.

(** ** Properties of a procedure that hold on every path *)

(** No call satisfying [p] occurs, whatever the environment answers. *)
Fixpoint never (p : forall R : Type, Ev R -> bool) {A : Type} (c : Prog A) : Prop :=
  match c with
  | Ret _ => True
  | Stop _ => True
  | Vis e k => p _ e = false /\ forall r, never p (k r)
  end.

(** The procedure returns to its caller, whatever the environment answers. *)
Fixpoint returns {A : Type} (c : Prog A) : Prop :=
  match c with
  | Ret _ => True
  | Stop _ => False
  | Vis e k => forall r, returns (k r)
  end.

(** ** Further readings of a trace *)

(** Milliseconds the task has spent in [delay]. *)
Fixpoint blocked_ms (t : list Obs) : Z :=
  match t with
  | [] => 0
  | Ob (Delay ms) _ :: t' => ms + blocked_ms t'
  | _ :: t' => blocked_ms t'
  end.

(** The levels written to [pin], in order. *)
Fixpoint pin_writes (pin : Z) (t : list Obs) : list Level :=
  match t with
  | [] => []
  | Ob (DigitalWrite p level) _ :: t' =>
      if (p =? pin)%Z then level :: pin_writes pin t' else pin_writes pin t'
  | _ :: t' => pin_writes pin t'
  end.

(** The connect attempts that were answered with failure. *)
Definition is_failed_attempt (o : Obs) : bool :=
  match o with
  | Ob e r =>
      match e in Ev R return R -> bool with
      | MqttConnect _ => fun ok => negb ok
      | _ => fun _ => false
      end r
  end.

Definition failed_attempts (t : list Obs) : nat :=
  List.length (filter is_failed_attempt t).

Definition is_digital_write (R : Type) (e : Ev R) : bool :=
  match e with DigitalWrite _ _ => true | _ => false end.

(** Calls into PubSubClient. *)
Definition is_mqtt_call (R : Type) (e : Ev R) : bool :=
  match e with
  | MqttSetClient | MqttSetServer _ _ | MqttSetCallback | MqttConnected
  | MqttConnect _ | MqttState | MqttSubscribe _ | MqttLoop => true
  | _ => false
  end.

(** Calls [SetupNetwork] and the observer make: console, [delay], and
    the WiFi and ETH objects. *)
Definition is_network_call {R : Type} (e : Ev R) : bool :=
  match e with
  | Delay _ | WiFiOnEvent | EthBegin | EthSetHostname _ | EthMacAddress
  | EthLocalIP | EthFullDuplex | EthLinkSpeed | NetPending => true
  | e' => is_console e'
  end.

(** The time a call blocks the task. *)
Definition delay_cost {R : Type} (e : Ev R) : Z :=
  match e with Delay ms => ms | _ => 0 end.

(** On every path the procedure spends at most [budget] ms in [delay]. *)
Fixpoint blocks_at_most (budget : Z) {A : Type} (c : Prog A) : Prop :=
  match c with
  | Ret _ => 0 <= budget
  | Stop _ => 0 <= budget
  | Vis e k => forall r, blocks_at_most (budget - delay_cost e) (k r)
  end.

(** The events that write [eth_connected], and the flag after one event
    of the observer and after a batch of them. *)
Definition writes_flag (event : WiFiEvent_t) : bool :=
  match event with
  | ARDUINO_EVENT_ETH_GOT_IP | ARDUINO_EVENT_ETH_DISCONNECTED
  | ARDUINO_EVENT_ETH_STOP => true
  | _ => false
  end.

Definition link_after (up : bool) (event : WiFiEvent_t) : bool :=
  match event with
  | ARDUINO_EVENT_ETH_GOT_IP => true
  | ARDUINO_EVENT_ETH_DISCONNECTED => false
  | ARDUINO_EVENT_ETH_STOP => false
  | _ => up
  end.

(** *** The OTA progress printer (lines 331-333)

    The value the printer passes to [printf]: [progress / (total / 100)]
    on unsigned integers. A zero divisor has no value. *)
Definition onProgress_percent (progress total : Z) : option Z :=
  let per_cent := total / 100 in
  if (per_cent =? 0)%Z then None else Some (progress / per_cent).

Unset Implicit Arguments.

(** ** General facts about runs *)

Lemma run_bind (A B W : Type) (h : Handler W) (p : Prog A) (f : A -> Prog B)
      (w : W) :
  run h (bind p f) w =
  match outcome (run h p w) with
  | Returned a =>
      let r2 := run h (f a) (world (run h p w)) in
      mkRun (trace (run h p w) ++ trace r2) (outcome r2) (world r2)
  | Stopped s => mkRun (trace (run h p w)) (Stopped s) (world (run h p w))
  end.
Proof.
  revert w. induction p as [a | s | R e k IH]; intro w; simpl.
  - destruct (run h (f a) w); reflexivity.
  - reflexivity.
  - rewrite IH.
    destruct (outcome (run h (k (fst (h R e w))) (snd (h R e w)))); reflexivity.
Qed.

Lemma effects_app (t1 t2 : list Obs) : effects (t1 ++ t2) = effects t1 ++ effects t2.
Proof. unfold effects. apply filter_app. Qed.

Lemma echoed_app (t1 t2 : list Obs) : echoed (t1 ++ t2) = echoed t1 ++ echoed t2.
Proof.
  induction t1 as [| [R e r] t1 IH]; simpl; [reflexivity |].
  destruct e; simpl; rewrite ?IH; reflexivity.
Qed.

Lemma count_app p (t1 t2 : list Obs) : count p (t1 ++ t2) = (count p t1 + count p t2)%nat.
Proof. unfold count. rewrite filter_app, length_app. reflexivity. Qed.

Lemma unit_eq_tt (u : unit) : u = tt.
Proof. destruct u; reflexivity. Qed.

Lemma skipn_nth_error (A : Type) (l : list A) (i : nat) (a : A) :
  nth_error l i = Some a -> skipn i l = a :: skipn (S i) l.
Proof.
  revert i. induction l as [| x l IH]; intros [| i] H; simpl in *; try discriminate.
  - inversion H; reflexivity.
  - apply IH; assumption.
Qed.

Lemma never_bind p (A B : Type) (c : Prog A) (f : A -> Prog B) :
  never p c -> (forall a, never p (f a)) -> never p (bind c f).
Proof.
  intros Hc Hf. induction c as [a | s | R e k IH]; simpl in *.
  - apply Hf.
  - exact I.
  - destruct Hc as [He Hk]. split; [exact He |]. intro r. apply IH, Hk.
Qed.

Lemma returns_bind (A B : Type) (c : Prog A) (f : A -> Prog B) :
  returns c -> (forall a, returns (f a)) -> returns (bind c f).
Proof.
  intros Hc Hf. induction c as [a | s | R e k IH]; simpl in *.
  - apply Hf.
  - contradiction.
  - intro r. apply IH, Hc.
Qed.

Section Runs.
Variable W : Type.
Variable h : Handler W.

Lemma never_count p (A : Type) (c : Prog A) :
    never p c -> forall w, count p (trace (run h c w)) = 0%nat.
Proof.
    induction c as [a | s | R e k IH]; intros Hn w; simpl in *.
    - reflexivity.
    - reflexivity.
    - destruct Hn as [He Hk]. unfold count in *. simpl. rewrite He.
      apply IH, Hk.
Qed.

Lemma returns_outcome (A : Type) (c : Prog A) :
    returns c -> forall w, exists a, outcome (run h c w) = Returned a.
Proof.
    induction c as [a | s | R e k IH]; intros Hr w; simpl in *.
    - exists a; reflexivity.
    - contradiction.
    - apply IH, Hr.
Qed.

  (** The trace of a sequence when its first part returns. *)
Lemma run_bind_returned (A B : Type) (c : Prog A) (f : A -> Prog B)
      (w : W) (a : A) :
    outcome (run h c w) = Returned a ->
    run h (bind c f) w =
    mkRun (trace (run h c w) ++ trace (run h (f a) (world (run h c w))))
          (outcome (run h (f a) (world (run h c w))))
          (world (run h (f a) (world (run h c w)))).
Proof. intro H. rewrite run_bind, H. reflexivity. Qed.

Lemma run_bind_stopped (A B : Type) (c : Prog A) (f : A -> Prog B) (w : W) s :
    outcome (run h c w) = Stopped s ->
    run h (bind c f) w = mkRun (trace (run h c w)) (Stopped s) (world (run h c w)).
Proof. intro H. rewrite run_bind, H. reflexivity. Qed.
End Runs.

(** ** MqttCallback *)

Section MqttCallbackFacts.
Variable W : Type.
Variable h : Handler W.

Lemma print_payload_in_bounds (payload : list byte) :
    forall (n i : nat) (w : W),
      (i + n <= List.length payload)%nat ->
      outcome (run h (print_payload payload i n) w) = Returned tt /\
      effects (trace (run h (print_payload payload i n) w)) = [] /\
      echoed (trace (run h (print_payload payload i n) w)) =
        firstn n (skipn i payload).
Proof.
    induction n as [| n IH]; intros i w Hle.
    - cbn. repeat split; reflexivity.
    - destruct (nth_error payload i) as [c |] eqn:Hc.
      2:{ apply nth_error_None in Hc. lia. }
      rewrite (skipn_nth_error _ _ _ _ Hc).
      cbn. unfold read_byte. rewrite Hc. cbn.
      destruct (IH (S i) (snd (h unit (SerialPrintChar c) w))) as (Ho & He & Hp); [lia |].
      unfold effects in *. cbn. rewrite Ho, He, Hp. repeat split; reflexivity.
Qed.

  (** What a call does is read off the first byte; the whole payload is
      echoed to the console. *)
Lemma MqttCallback_first_byte (topic : string) (payload : list byte) (length : N)
        (c : byte) (w : W) :
    length = N.of_nat (List.length payload) ->
    nth_error payload 0 = Some c ->
    echoed (trace (run h (MqttCallback topic payload length) w)) = payload /\
    (effects (trace (run h (MqttCallback topic payload length) w)),
     outcome (run h (MqttCallback topic payload length) w)) =
      match c with
      | "0"%byte => ([Ob (DigitalWrite GATE_GPIO LOW) tt], Returned tt)
      | "1"%byte => ([Ob (DigitalWrite GATE_GPIO HIGH) tt; Ob (Delay 750) tt;
                      Ob (DigitalWrite GATE_GPIO LOW) tt], Returned tt)
      | "9"%byte => ([], Stopped Restarted)
      | _ => ([], Returned tt)
      end.
Proof.
    intros Hlen Hc. subst length. unfold MqttCallback.
    rewrite Nnat.Nat2N.id. cbn -[print_payload].
    rewrite run_bind.
    match goal with
    | |- context [run h (print_payload payload 0 ?n) ?w0] =>
        destruct (print_payload_in_bounds payload n 0 w0) as (Ho & He & Hp);
        [simpl; lia |];
        set (rp := run h (print_payload payload 0 n) w0) in *
    end.
    rewrite Ho. cbn -[print_payload]. unfold read_byte. rewrite Hc.
    cbn -[print_payload].
    match goal with
    | |- context [run h _ ?w1] => generalize w1
    end.
    intro w1.
    rewrite !echoed_app, !effects_app. rewrite He, Hp.
    rewrite firstn_all.
    unfold effects. cbn.
    split.
    - destruct c; cbn; rewrite app_nil_r; reflexivity.
    - destruct c; cbn;
        repeat match goal with
               | |- context [fst (h unit ?e ?x)] =>
                   rewrite (unit_eq_tt (fst (h unit e x)))
               end; reflexivity.
Qed.
End MqttCallbackFacts.

(** C1. Command decoding is a function of the first payload byte: with
    first byte '0' the only action of a call is one write of LOW to the gate
    pin; with '1' it is a write of HIGH, a 750 ms delay and a write of LOW,
    and the call returns (no restart); with '9' the call ends in a restart
    and performs no other action; with any other first byte the call
    returns having performed no action at all (console output aside). *)
Theorem MqttCallback_decodes_first_byte :
  forall (W : Type) (h : Handler W) (w : W)
         (topic : string) (payload : list byte) (length : N) (c : byte),
    length = N.of_nat (List.length payload) ->
    nth_error payload 0 = Some c ->
    let r := run h (MqttCallback topic payload length) w in
    match c with
    | "0"%byte =>
        effects (trace r) = [Ob (DigitalWrite GATE_GPIO LOW) tt] /\
        outcome r = Returned tt
    | "1"%byte =>
        effects (trace r) =
          [Ob (DigitalWrite GATE_GPIO HIGH) tt; Ob (Delay 750) tt;
           Ob (DigitalWrite GATE_GPIO LOW) tt] /\
        outcome r = Returned tt
    | "9"%byte =>
        effects (trace r) = [] /\ outcome r = Stopped Restarted
    | _ =>
        effects (trace r) = [] /\ outcome r = Returned tt
    end.
Proof.
  intros W h w topic payload length c Hlen Hc r.
  destruct (MqttCallback_first_byte W h topic payload length c w Hlen Hc) as [_ H].
  pose proof (f_equal fst H) as He. pose proof (f_equal snd H) as Ho.
  cbn [fst snd] in He, Ho. subst r. rewrite He, Ho.
  destruct c; split; reflexivity.
Qed.

Lemma MqttCallback_decodes_first_byte_witness :
  let r := run offline (MqttCallback MQTT_TOPIC payload_1 1) tt in
  effects (trace r) =
    [Ob (DigitalWrite GATE_GPIO HIGH) tt; Ob (Delay 750) tt;
     Ob (DigitalWrite GATE_GPIO LOW) tt] /\
  outcome r = Returned tt.
Proof.
  exact (MqttCallback_decodes_first_byte unit offline tt MQTT_TOPIC payload_1 1
           "1"%byte eq_refl eq_refl).
Defined.

(** The three commands and an unknown one, against an environment that
    answers nothing of interest. *)
Example MqttCallback_command_0 :
  let r := run offline (MqttCallback MQTT_TOPIC payload_0 1) tt in
  effects (trace r) = [Ob (DigitalWrite GATE_GPIO LOW) tt] /\
  outcome r = Returned tt.
Proof. split; reflexivity. Qed.

Example MqttCallback_command_1 :
  trace (run offline (MqttCallback MQTT_TOPIC payload_1 1) tt) =
    [Ob (SerialPrint "New message arrived [") tt;
     Ob (SerialPrint "control/gate") tt;
     Ob (SerialPrint "] ") tt;
     Ob (SerialPrintChar "1"%byte) tt;
     Ob (SerialPrintln "") tt;
     Ob (SerialPrintln "Received command 1 - TOGGLE HI/LO") tt;
     Ob (DigitalWrite 15 HIGH) tt;
     Ob (Delay 750) tt;
     Ob (DigitalWrite 15 LOW) tt].
Proof. reflexivity. Qed.

Example MqttCallback_command_9 :
  let r := run offline (MqttCallback MQTT_TOPIC payload_9xyz 4) tt in
  effects (trace r) = [] /\ outcome r = Stopped Restarted.
Proof. split; reflexivity. Qed.

Example MqttCallback_unknown_command :
  let r := run offline (MqttCallback MQTT_TOPIC payload_open 4) tt in
  trace r =
    [Ob (SerialPrint "New message arrived [") tt;
     Ob (SerialPrint "control/gate") tt;
     Ob (SerialPrint "] ") tt;
     Ob (SerialPrintChar "o"%byte) tt; Ob (SerialPrintChar "p"%byte) tt;
     Ob (SerialPrintChar "e"%byte) tt; Ob (SerialPrintChar "n"%byte) tt;
     Ob (SerialPrintln "") tt;
     Ob (SerialPrint "Received unknown command: ") tt;
     Ob (SerialPrintlnNum 111) tt] /\
  outcome r = Returned tt.
Proof. split; reflexivity. Qed.

(** C5. The read of [payload[0]] is not guarded by the length: when the
    length is at least 1 no read of the call leaves the payload, and when
    the length is 0 the call runs into the read of index 0, which lies
    outside the payload, before any action is taken. *)
Theorem MqttCallback_first_byte_unguarded :
  forall (W : Type) (h : Handler W) (w : W)
         (topic : string) (payload : list byte) (length : N),
    length = N.of_nat (List.length payload) ->
    let r := run h (MqttCallback topic payload length) w in
    if (length =? 0)%N
    then outcome r = Stopped (OutOfBounds 0) /\ effects (trace r) = []
    else forall i, outcome r <> Stopped (OutOfBounds i).
Proof.
  intros W h w topic payload length Hlen r.
  destruct payload as [| c rest].
  - subst length r. cbn. split; reflexivity.
  - assert (Hc : nth_error (c :: rest) 0 = Some c) by reflexivity.
    destruct (MqttCallback_first_byte W h topic (c :: rest) length c w Hlen Hc)
      as [_ H].
    pose proof (f_equal snd H) as Ho. cbn [fst snd] in Ho.
    replace (length =? 0)%N with false
      by (symmetry; apply N.eqb_neq; subst length; simpl; lia).
    intros i. subst r. rewrite Ho.
    destruct c; discriminate.
Qed.

Lemma MqttCallback_first_byte_unguarded_witness :
  (forall i, outcome (run offline (MqttCallback MQTT_TOPIC payload_open 4) tt)
             <> Stopped (OutOfBounds i)) /\
  (outcome (run offline (MqttCallback MQTT_TOPIC [] 0) tt) = Stopped (OutOfBounds 0) /\
   effects (trace (run offline (MqttCallback MQTT_TOPIC [] 0) tt)) = []).
Proof.
  split.
  - exact (MqttCallback_first_byte_unguarded unit offline tt MQTT_TOPIC
             payload_open 4 eq_refl).
  - exact (MqttCallback_first_byte_unguarded unit offline tt MQTT_TOPIC
             [] 0 eq_refl).
Defined.

(** C7, as the claim states it, fails: two payloads that agree on the first
    byte '9' produce different console output, because every payload byte
    is read and echoed before the command is decoded. *)
Lemma MqttCallback_tail_reaches_console :
  nth_error payload_9xyz 0 = Some "9"%byte /\
  nth_error payload_9abc 0 = Some "9"%byte /\
  echoed (trace (run offline (MqttCallback MQTT_TOPIC payload_9xyz 4) tt)) = payload_9xyz /\
  echoed (trace (run offline (MqttCallback MQTT_TOPIC payload_9abc 4) tt)) = payload_9abc /\
  trace (run offline (MqttCallback MQTT_TOPIC payload_9xyz 4) tt) <>
  trace (run offline (MqttCallback MQTT_TOPIC payload_9abc 4) tt).
Proof.
  repeat split; try reflexivity.
  intro H. apply (f_equal echoed) in H. vm_compute in H. discriminate H.
Qed.

(** C7, amended. For every message whose first byte is '9' the call ends
    in a restart and performs no other action; the trailing bytes are
    echoed to the console and have no further influence: console output
    aside, any two such calls behave the same. *)
Theorem MqttCallback_restart_whatever_follows :
  forall (W : Type) (h : Handler W) (w1 w2 : W) (topic1 topic2 : string)
         (payload1 payload2 : list byte) (length1 length2 : N),
    length1 = N.of_nat (List.length payload1) ->
    length2 = N.of_nat (List.length payload2) ->
    nth_error payload1 0 = Some "9"%byte ->
    nth_error payload2 0 = Some "9"%byte ->
    let r1 := run h (MqttCallback topic1 payload1 length1) w1 in
    let r2 := run h (MqttCallback topic2 payload2 length2) w2 in
    outcome r1 = Stopped Restarted /\ outcome r2 = Stopped Restarted /\
    effects (trace r1) = [] /\ effects (trace r2) = [] /\
    echoed (trace r1) = payload1 /\ echoed (trace r2) = payload2.
Proof.
  intros W h w1 w2 topic1 topic2 payload1 payload2 length1 length2 Hl1 Hl2 Hc1 Hc2 r1 r2.
  destruct (MqttCallback_first_byte W h topic1 payload1 length1 _ w1 Hl1 Hc1) as [E1 H1].
  destruct (MqttCallback_first_byte W h topic2 payload2 length2 _ w2 Hl2 Hc2) as [E2 H2].
  pose proof (f_equal fst H1) as F1. pose proof (f_equal snd H1) as O1.
  pose proof (f_equal fst H2) as F2. pose proof (f_equal snd H2) as O2.
  cbn [fst snd] in F1, O1, F2, O2.
  subst r1 r2. repeat split; assumption.
Qed.

Lemma MqttCallback_restart_whatever_follows_witness :
  let r1 := run offline (MqttCallback MQTT_TOPIC payload_9xyz 4) tt in
  let r2 := run offline (MqttCallback MQTT_TOPIC payload_9abc 4) tt in
  outcome r1 = Stopped Restarted /\ outcome r2 = Stopped Restarted /\
  effects (trace r1) = [] /\ effects (trace r2) = [] /\
  echoed (trace r1) = payload_9xyz /\ echoed (trace r2) = payload_9abc.
Proof.
  exact (MqttCallback_restart_whatever_follows unit offline tt tt
           MQTT_TOPIC MQTT_TOPIC payload_9xyz payload_9abc 4 4
           eq_refl eq_refl eq_refl eq_refl).
Defined.

(** ** ConnectMqtt *)

Lemma count_effects p (t : list Obs) :
  (forall R (e : Ev R), p R e = true -> is_console e = false) ->
  count p (effects t) = count p t.
Proof.
  intro Hp. unfold count, effects.
  induction t as [| [R e r] t IH]; simpl; [reflexivity |].
  destruct (is_console e) eqn:Hc; simpl.
  - destruct (p R e) eqn:Hpe.
    + apply Hp in Hpe. congruence.
    + exact IH.
  - destruct (p R e); simpl; rewrite IH; reflexivity.
Qed.

Lemma is_connect_not_console (R : Type) (e : Ev R) :
  is_connect e = true -> is_console e = false.
Proof. destruct e; simpl; congruence. Qed.

Lemma count_connect_rounds (rcs : list Z) (tail : list Obs) :
  count is_connect (flat_map failed_round rcs ++ tail) =
  (List.length rcs + count is_connect tail)%nat.
Proof.
  induction rcs as [| rc rcs IH]; simpl; [reflexivity |].
  unfold count in *. simpl. rewrite IH. reflexivity.
Qed.

Section ConnectMqttFacts.
Variable W : Type.
Variable h : Handler W.

(** The retry loop entered with [nLoop] and [fuel] iterations to go. *)
Lemma connect_loop_run :
  forall (fuel : nat) (nLoop : Z) (w : W),
    nLoop + Z.of_nat fuel = 5 ->
    exists (rcs : list Z) (ok : bool),
      effects (trace (run h (connect_loop fuel nLoop) w)) =
        flat_map failed_round rcs ++ (if ok then [connect_ok] else []) /\
      outcome (run h (connect_loop fuel nLoop) w) = Returned ok /\
      (if ok then (List.length rcs < fuel)%nat else List.length rcs = fuel).
Proof.
  induction fuel as [| fuel IH]; intros nLoop w Hn.
  - assert (nLoop = 5) by lia. subst nLoop. cbn.
    exists [], false. repeat split; reflexivity.
  - assert (Hlt : (nLoop <? 5)%Z = true) by (apply Z.ltb_lt; lia).
    cbn [connect_loop]. rewrite Hlt.
    cbn -[connect_loop effects].
    destruct (fst (h bool (MqttConnect MQTT_CLIENT_ID) w)) eqn:Hok.
    + exists [], true. cbn. repeat split; try reflexivity; try lia.
    + cbn -[connect_loop effects].
      match goal with
      | |- context [run h (connect_loop fuel (nLoop + 1)) ?w'] =>
          destruct (IH (nLoop + 1) w' ltac:(lia)) as (rcs & ok & He & Ho & Hl);
          set (r' := run h (connect_loop fuel (nLoop + 1)) w') in *
      end.
      match goal with
      | |- context [Ob MqttState ?rc] => exists (rc :: rcs), ok
      end.
      unfold effects in *. cbn. rewrite He, Ho.
      repeat match goal with
             | |- context [fst (h unit ?e ?x)] =>
                 rewrite (unit_eq_tt (fst (h unit e x)))
             end.
      repeat split; try reflexivity.
      destruct ok; simpl; lia.
Qed.

Lemma ConnectMqtt_alive_run (w : W) :
  fst (h bool MqttConnected w) = true ->
  trace (run h ConnectMqtt w) =
    [Ob MqttConnected true; Ob (SerialPrintln "MQTT connecting alive") tt] /\
  outcome (run h ConnectMqtt w) = Returned true.
Proof.
  intro Halive. unfold ConnectMqtt. cbn. rewrite Halive. cbn.
  rewrite (unit_eq_tt (fst (h unit _ _))). split; reflexivity.
Qed.

Lemma ConnectMqtt_dead_run (w : W) :
  fst (h bool MqttConnected w) = false ->
  exists (rcs : list Z) (ok : bool),
    effects (trace (run h ConnectMqtt w)) =
      Ob MqttConnected false ::
      flat_map failed_round rcs ++ (if ok then [connect_ok] else []) /\
    outcome (run h ConnectMqtt w) = Returned ok /\
    (if ok then (List.length rcs < 5)%nat else List.length rcs = 5%nat).
Proof.
  intro Hdead. unfold ConnectMqtt. cbn -[connect_loop effects]. rewrite Hdead.
  cbn -[connect_loop effects].
  match goal with
  | |- context [run h (connect_loop 5 0) ?w'] =>
      destruct (connect_loop_run 5 0 w' eq_refl) as (rcs & ok & He & Ho & Hl);
      remember (run h (connect_loop 5 0) w') as r' eqn:Hr'; clear Hr'
  end.
  exists rcs, ok. unfold effects in *. cbn. rewrite He, Ho.
  repeat split; try reflexivity; exact Hl.
Qed.
End ConnectMqttFacts.

(** Follow every answer of the environment through a procedure. *)
Ltac paths :=
  repeat (cbn;
          match goal with
          | |- True => exact I
          | |- _ /\ _ => split
          | |- _ = _ => reflexivity
          | |- forall _ : bool, _ => intros [|]
          | |- forall _, _ => intro
          end).

Lemma ConnectMqtt_returns : returns ConnectMqtt.
Proof. paths. Qed.

Lemma ConnectMqtt_never_subscribe : never (@is_subscribe) ConnectMqtt.
Proof. paths. Qed.

Lemma ConnectMqtt_never_ota : never (@is_ota_handle) ConnectMqtt.
Proof. paths. Qed.

Lemma ConnectMqtt_queries_once :
  forall (W : Type) (h : Handler W) (w : W),
    count (@is_connected_query) (trace (run h ConnectMqtt w)) = 1%nat.
Proof.
  intros W h w.
  change ConnectMqtt with
    (Vis MqttConnected (fun alive : bool =>
       bind (Ret alive) (fun alive =>
         if negb alive
         then Serial_print "Setup MQTT..." ;; connect_loop 5 0
         else Serial_println "MQTT connecting alive" ;; Ret true))).
  cbn [run trace]. unfold count at 1. cbn [filter is_connected_query List.length].
  f_equal. apply (never_count W h (@is_connected_query)).
  destruct (fst (h bool MqttConnected w)); paths.
Qed.

(** C3. A call of [ConnectMqtt] on a dead session makes at most five
    connect attempts. Each failed attempt is followed by a two-second
    pause before the next one; the first attempt that succeeds is the last
    action of the call, which then returns true; when five attempts have
    failed there is no sixth and the call returns false. *)
Theorem ConnectMqtt_bounded_retry :
  forall (W : Type) (h : Handler W) (w : W),
    fst (h bool MqttConnected w) = false ->
    let r := run h ConnectMqtt w in
    exists (rcs : list Z) (ok : bool),
      effects (trace r) =
        Ob MqttConnected false ::
        flat_map failed_round rcs ++ (if ok then [connect_ok] else []) /\
      outcome r = Returned ok /\
      (if ok then (List.length rcs < 5)%nat else List.length rcs = 5%nat) /\
      (count (@is_connect) (trace r) <= 5)%nat.
Proof.
  intros W h w Hdead r.
  destruct (ConnectMqtt_dead_run W h w Hdead) as (rcs & ok & He & Ho & Hl).
  exists rcs, ok. fold r in He, Ho. repeat split; try assumption.
  rewrite <- (count_effects (@is_connect) (trace r) is_connect_not_console).
  rewrite He.
  change (Ob MqttConnected false :: flat_map failed_round rcs ++
            (if ok then [connect_ok] else []))
    with ([Ob MqttConnected false] ++ flat_map failed_round rcs ++
            (if ok then [connect_ok] else [])).
  rewrite count_app, count_connect_rounds.
  destruct ok; cbn; lia.
Qed.

Lemma ConnectMqtt_bounded_retry_witness :
  let r := run scripted ConnectMqtt [false; false; true] in
  exists (rcs : list Z) (ok : bool),
    effects (trace r) =
      Ob MqttConnected false ::
      flat_map failed_round rcs ++ (if ok then [connect_ok] else []) /\
    outcome r = Returned ok /\
    (if ok then (List.length rcs < 5)%nat else List.length rcs = 5%nat) /\
    (count (@is_connect) (trace r) <= 5)%nat.
Proof.
  exact (ConnectMqtt_bounded_retry (list bool) scripted [false; false; true] eq_refl).
Defined.

(** Broker reachable at the third attempt: two failed rounds, then success. *)
Example ConnectMqtt_third_attempt :
  let r := run scripted ConnectMqtt [false; false; true] in
  effects (trace r) =
    Ob MqttConnected false :: failed_round (-2) ++ failed_round (-2) ++ [connect_ok] /\
  outcome r = Returned true.
Proof. split; reflexivity. Qed.

(** Broker unreachable: five failed rounds, the call returns false. *)
Example ConnectMqtt_unreachable :
  let r := run offline ConnectMqtt tt in
  effects (trace r) =
    Ob MqttConnected false :: flat_map failed_round [-2; -2; -2; -2; -2] /\
  outcome r = Returned false /\
  count (@is_connect) (trace r) = 5%nat.
Proof. repeat split; reflexivity. Qed.

(** C4. A call of [ConnectMqtt] on a live session asks the client whether
    it is connected, logs one line and returns true: no connect attempt and
    no pause. Any number of calls in a row on a session that stays alive
    does the same each time. *)
Theorem ConnectMqtt_alive_no_reconnect :
  forall (W : Type) (h : Handler W),
    (forall w : W,
        fst (h bool MqttConnected w) = true ->
        trace (run h ConnectMqtt w) =
          [Ob MqttConnected true; Ob (SerialPrintln "MQTT connecting alive") tt] /\
        outcome (run h ConnectMqtt w) = Returned true) /\
    ((forall w : W, fst (h bool MqttConnected w) = true) ->
     forall (n : nat) (w : W),
       let r := run h (calls n ConnectMqtt) w in
       outcome r = Returned (repeat true n) /\
       effects (trace r) = repeat (Ob MqttConnected true) n /\
       count (@is_connect) (trace r) = 0%nat /\
       count (@is_delay) (trace r) = 0%nat).
Proof.
  intros W h. split.
  - intros w Halive. apply ConnectMqtt_alive_run. exact Halive.
  - intros Halive n. induction n as [| n IH]; intro w.
    + cbn. repeat split; reflexivity.
    + destruct (ConnectMqtt_alive_run W h w (Halive w)) as [Ht Ho].
      intro r. subst r. cbn [calls].
      rewrite (run_bind_returned W h _ _ _ _ w true Ho).
      cbn [trace outcome world].
      set (w1 := world (run h ConnectMqtt w)).
      specialize (IH w1). cbn zeta in IH. destruct IH as (IHo & IHe & IHc & IHd).
      rewrite (run_bind_returned W h _ _ _ _ w1 (repeat true n) IHo).
      cbn [trace outcome world run]. rewrite app_nil_r.
      rewrite effects_app, !count_app, IHe, IHc, IHd, Ht.
      repeat split; reflexivity.
Qed.

Lemma ConnectMqtt_alive_no_reconnect_witness :
  (trace (run online ConnectMqtt tt) =
     [Ob MqttConnected true; Ob (SerialPrintln "MQTT connecting alive") tt] /\
   outcome (run online ConnectMqtt tt) = Returned true) /\
  (let r := run online (calls 3 ConnectMqtt) tt in
   outcome r = Returned (repeat true 3) /\
   effects (trace r) = repeat (Ob MqttConnected true) 3 /\
   count (@is_connect) (trace r) = 0%nat /\
   count (@is_delay) (trace r) = 0%nat).
Proof.
  split.
  - exact (proj1 (ConnectMqtt_alive_no_reconnect unit online) tt eq_refl).
  - exact (proj2 (ConnectMqtt_alive_no_reconnect unit online)
             (fun _ => eq_refl) 3%nat tt).
Defined.

(** ** What the callback and one pass of the loop never do *)

Lemma print_payload_never (p : forall R : Type, Ev R -> bool)
      (payload : list byte) :
  (forall c, p unit (SerialPrintChar c) = false) ->
  forall (n i : nat), never p (print_payload payload i n).
Proof.
  intros Hp. induction n as [| n IH]; intro i; cbn; [exact I |].
  unfold read_byte. destruct (nth_error payload i); cbn; [| exact I].
  split; [apply Hp | intros _; apply IH].
Qed.

Lemma MqttCallback_never (p : forall R : Type, Ev R -> bool)
      (topic : string) (payload : list byte) (length : N) :
  (forall (R : Type) (e : Ev R), is_console e || is_actuation e = true -> p R e = false) ->
  never p (MqttCallback topic payload length).
Proof.
  intro Hp. unfold MqttCallback. cbn -[print_payload].
  repeat (split; [apply Hp; reflexivity | intros _]).
  apply never_bind.
  - apply print_payload_never. intro c. apply Hp. reflexivity.
  - intros _. cbn. split; [apply Hp; reflexivity | intros _].
    unfold read_byte. destruct (nth_error payload 0) as [c |]; cbn; [| exact I].
    destruct c; cbn; repeat (split; [apply Hp; reflexivity | intros _]); exact I.
Qed.

Lemma loop_never (p : forall R : Type, Ev R -> bool) :
  (forall (R : Type) (e : Ev R), is_console e || is_actuation e = true -> p R e = false) ->
  p _ MqttLoop = false -> p _ OtaHandle = false ->
  never p ConnectMqtt ->
  never p loop.
Proof.
  intros Hp Hl Ho Hc. unfold loop, hMqttClient_loop.
  cbn -[MqttCallback ConnectMqtt]. split; [exact Hl |]. intros [[m |] alive].
  - cbn -[MqttCallback ConnectMqtt].
    apply never_bind; [apply never_bind |].
    + apply MqttCallback_never, Hp.
    + intros _. exact I.
    + intros b. apply never_bind.
      * destruct b; cbn -[ConnectMqtt]; [exact I |].
        apply never_bind; [exact Hc | intros _; exact I].
      * intros _. cbn. split; [exact Ho | intros _; exact I].
  - cbn -[MqttCallback ConnectMqtt]. apply never_bind.
    + destruct alive; cbn -[ConnectMqtt]; [exact I |].
      apply never_bind; [exact Hc | intros _; exact I].
    + intros _. cbn. split; [exact Ho | intros _; exact I].
Qed.

Lemma calls_never (p : forall R : Type, Ev R -> bool) (A : Type) (c : Prog A) :
  never p c -> forall n, never p (calls n c).
Proof.
  intros Hc. induction n as [| n IH]; cbn; [exact I |].
  apply never_bind; [exact Hc | intros a].
  apply never_bind; [exact IH | intros rest; exact I].
Qed.

Lemma count_subscriptions (t : list Obs) :
  count (@is_subscribe) t = List.length (subscriptions t).
Proof.
  unfold count. induction t as [| [R e r] t IH]; simpl; [reflexivity |].
  destruct e; simpl; rewrite ?IH; reflexivity.
Qed.

Lemma subscriptions_app (t1 t2 : list Obs) :
  subscriptions (t1 ++ t2) = subscriptions t1 ++ subscriptions t2.
Proof.
  induction t1 as [| [R e r] t1 IH]; simpl; [reflexivity |].
  destruct e; simpl; rewrite ?IH; reflexivity.
Qed.

Lemma never_subscriptions (W : Type) (h : Handler W) (A : Type)
      (c : Prog A) (w : W) :
  never (@is_subscribe) c -> subscriptions (trace (run h c w)) = [].
Proof.
  intro Hn. apply length_zero_iff_nil. rewrite <- count_subscriptions.
  apply never_count. exact Hn.
Qed.

(** ** SetupMQTT *)

Section SetupMQTTFacts.
Variable W : Type.
Variable h : Handler W.

(** A run of [SetupMQTT] is the two configuration calls, the run of
    [ConnectMqtt], and the four closing calls, whatever [ConnectMqtt]
    returned. *)
Lemma SetupMQTT_run (w : W) :
  let w1 := snd (h unit (MqttSetServer MQTT_SERVER MQTT_PORT)
                   (snd (h unit MqttSetClient w))) in
  exists subscribed : bool,
    trace (run h SetupMQTT w) =
      [Ob MqttSetClient tt; Ob (MqttSetServer MQTT_SERVER MQTT_PORT) tt] ++
      trace (run h ConnectMqtt w1) ++
      [Ob MqttSetCallback tt; Ob (MqttSubscribe MQTT_TOPIC) subscribed;
       Ob (SerialPrint "Subscribed to topic ") tt; Ob (SerialPrintln MQTT_TOPIC) tt] /\
    outcome (run h SetupMQTT w) = Returned tt.
Proof.
  intro w1. unfold SetupMQTT. cbn -[ConnectMqtt]. fold w1.
  destruct (returns_outcome W h bool ConnectMqtt ConnectMqtt_returns w1) as [b Hb].
  rewrite (run_bind_returned W h _ _ _ _ w1 b Hb).
  cbn -[ConnectMqtt].
  repeat match goal with
         | |- context [fst (h unit ?e ?x)] => rewrite (unit_eq_tt (fst (h unit e x)))
         end.
  eexists. split; reflexivity.
Qed.
End SetupMQTTFacts.

Lemma subscribe_not_callback_call (R : Type) (e : Ev R) :
  is_console e || is_actuation e = true -> is_subscribe e = false.
Proof. destruct e; simpl; congruence. Qed.

Lemma loop_never_subscribes : never (@is_subscribe) loop.
Proof.
  apply loop_never.
  - exact subscribe_not_callback_call.
  - reflexivity.
  - reflexivity.
  - exact ConnectMqtt_never_subscribe.
Qed.

(** C6. The topic subscription is issued once, by [SetupMQTT]; no run of
    [ConnectMqtt], whether its attempts succeed or fail, and no sequence of
    passes through [loop] issues a subscription. *)
Theorem subscription_only_in_SetupMQTT :
  forall (W : Type) (h : Handler W) (w : W),
    subscriptions (trace (run h SetupMQTT w)) = [MQTT_TOPIC] /\
    count (@is_subscribe) (trace (run h SetupMQTT w)) = 1%nat /\
    count (@is_subscribe) (trace (run h ConnectMqtt w)) = 0%nat /\
    (forall n : nat, count (@is_subscribe) (trace (run h (calls n loop) w)) = 0%nat).
Proof.
  intros W h w.
  assert (Hs : subscriptions (trace (run h SetupMQTT w)) = [MQTT_TOPIC]).
  { destruct (SetupMQTT_run W h w) as (subscribed & Ht & _).
    rewrite Ht, !subscriptions_app.
    rewrite (never_subscriptions W h bool ConnectMqtt _ ConnectMqtt_never_subscribe).
    reflexivity. }
  split; [exact Hs |]. split; [| split].
  - rewrite count_subscriptions, Hs. reflexivity.
  - apply never_count. exact ConnectMqtt_never_subscribe.
  - intro n. apply never_count. apply calls_never. exact loop_never_subscribes.
Qed.

(** C10. [SetupMQTT] discards what [ConnectMqtt] returns. When that call
    returns false, five connect attempts having failed, [SetupMQTT] goes on
    to install the callback and to issue its one subscription, and returns
    normally: no restart, no second subscription, and none in the passes
    through [loop] that follow. *)
Theorem SetupMQTT_discards_connect_result :
  forall (W : Type) (h : Handler W) (w : W),
    let w1 := snd (h unit (MqttSetServer MQTT_SERVER MQTT_PORT)
                     (snd (h unit MqttSetClient w))) in
    outcome (run h ConnectMqtt w1) = Returned false ->
    let r := run h SetupMQTT w in
    exists (rcs : list Z) (subscribed : bool),
      List.length rcs = 5%nat /\
      effects (trace r) =
        [Ob MqttSetClient tt; Ob (MqttSetServer MQTT_SERVER MQTT_PORT) tt;
         Ob MqttConnected false] ++
        flat_map failed_round rcs ++
        [Ob MqttSetCallback tt; Ob (MqttSubscribe MQTT_TOPIC) subscribed] /\
      outcome r = Returned tt /\
      subscriptions (trace r) = [MQTT_TOPIC] /\
      (forall (n : nat) (w' : W),
          subscriptions (trace (run h (calls n loop) w')) = []).
Proof.
  intros W h w w1 Hfalse r.
  destruct (SetupMQTT_run W h w) as (subscribed & Ht & Ho). fold w1 in Ht. fold r in Ht, Ho.
  destruct (fst (h bool MqttConnected w1)) eqn:Hq.
  - destruct (ConnectMqtt_alive_run W h w1 Hq) as [_ Htrue]. congruence.
  - destruct (ConnectMqtt_dead_run W h w1 Hq) as (rcs & ok & He & Hok & Hl).
    assert (ok = false) by congruence. subst ok.
    exists rcs, subscribed. split; [exact Hl |]. split; [| split; [| split]].
    + rewrite Ht, !effects_app, He. cbn [app]. rewrite app_nil_r.
      reflexivity.
    + exact Ho.
    + rewrite Ht, !subscriptions_app.
      rewrite (never_subscriptions W h bool ConnectMqtt _ ConnectMqtt_never_subscribe).
      reflexivity.
    + intros n w'. apply never_subscriptions, calls_never, loop_never_subscribes.
Qed.

Lemma SetupMQTT_discards_connect_result_witness :
  let r := run offline SetupMQTT tt in
  exists (rcs : list Z) (subscribed : bool),
    List.length rcs = 5%nat /\
    effects (trace r) =
      [Ob MqttSetClient tt; Ob (MqttSetServer MQTT_SERVER MQTT_PORT) tt;
       Ob MqttConnected false] ++
      flat_map failed_round rcs ++
      [Ob MqttSetCallback tt; Ob (MqttSubscribe MQTT_TOPIC) subscribed] /\
    outcome r = Returned tt /\
    subscriptions (trace r) = [MQTT_TOPIC] /\
    (forall (n : nat) (w' : unit),
        subscriptions (trace (run offline (calls n loop) w')) = []).
Proof.
  exact (SetupMQTT_discards_connect_result unit offline tt eq_refl).
Defined.

(** With no broker in reach: five failed rounds, then callback and
    subscription on the session that never came up. *)
Example SetupMQTT_unreachable :
  let r := run offline SetupMQTT tt in
  effects (trace r) =
    [Ob MqttSetClient tt; Ob (MqttSetServer MQTT_SERVER MQTT_PORT) tt;
     Ob MqttConnected false] ++
    flat_map failed_round [-2; -2; -2; -2; -2] ++
    [Ob MqttSetCallback tt; Ob (MqttSubscribe MQTT_TOPIC) false] /\
  outcome r = Returned tt.
Proof. split; reflexivity. Qed.

(** ** loop *)

Lemma hMqttClient_loop_never (p : forall R : Type, Ev R -> bool) :
  (forall (R : Type) (e : Ev R), is_console e || is_actuation e = true -> p R e = false) ->
  p _ MqttLoop = false ->
  never p hMqttClient_loop.
Proof.
  intros Hp Hl. unfold hMqttClient_loop.
  cbn -[MqttCallback]. split; [exact Hl |]. intros [[m |] alive]; cbn -[MqttCallback].
  - apply never_bind; [apply MqttCallback_never, Hp | intros _; exact I].
  - exact I.
Qed.

Lemma ota_not_callback_call (R : Type) (e : Ev R) :
  is_console e || is_actuation e = true -> is_ota_handle e = false.
Proof. destruct e; simpl; congruence. Qed.

Lemma query_not_callback_call (R : Type) (e : Ev R) :
  is_console e || is_actuation e = true -> is_connected_query e = false.
Proof. destruct e; simpl; congruence. Qed.

Section LoopFacts.
Variable W : Type.
Variable h : Handler W.

(** What [hMqttClient.loop()] returns is what the client answered. *)
Lemma hMqttClient_loop_outcome (w : W) (a : bool) :
  outcome (run h hMqttClient_loop w) = Returned a ->
  a = snd (fst (h _ MqttLoop w)).
Proof.
  unfold hMqttClient_loop. cbn -[MqttCallback].
  destruct (fst (h _ MqttLoop w)) as [[m |] alive]; cbn -[MqttCallback].
  - rewrite run_bind.
    destruct (outcome (run h (MqttCallback (msg_topic m) (msg_payload m) (msg_length m)) _));
      cbn; congruence.
  - congruence.
Qed.

(** Without a message the call returns. *)
Lemma hMqttClient_loop_idle (w : W) :
  fst (fst (h _ MqttLoop w)) = None ->
  outcome (run h hMqttClient_loop w) = Returned (snd (fst (h _ MqttLoop w))).
Proof.
  unfold hMqttClient_loop. cbn -[MqttCallback].
  destruct (fst (h _ MqttLoop w)) as [[m |] alive]; cbn -[MqttCallback];
    [discriminate | reflexivity].
Qed.

(** The rest of a pass, once [hMqttClient.loop()] has returned [alive]. *)
Lemma loop_after_poll (alive : bool) (w : W) :
  let r := run h ((if negb alive then _ <- ConnectMqtt ;; Ret tt else Ret tt) ;;
                  trigger OtaHandle) w in
  outcome r = Returned tt /\
  count (@is_ota_handle) (trace r) = 1%nat /\
  count (@is_connected_query) (trace r) = (if alive then 0 else 1)%nat.
Proof.
  destruct alive; cbn -[ConnectMqtt count].
  - rewrite (unit_eq_tt (fst (h unit OtaHandle w))). repeat split; reflexivity.
  - destruct (returns_outcome W h bool ConnectMqtt ConnectMqtt_returns w) as [b Hb].
    rewrite !run_bind, Hb. cbn -[ConnectMqtt count].
    rewrite (unit_eq_tt (fst (h unit OtaHandle _))).
    rewrite !count_app, ConnectMqtt_queries_once.
    rewrite (never_count W h (@is_ota_handle) bool ConnectMqtt ConnectMqtt_never_ota).
    repeat split; reflexivity.
Qed.

Lemma loop_run (w : W) (a : bool) :
  outcome (run h hMqttClient_loop w) = Returned a ->
  outcome (run h loop w) = Returned tt /\
  count (@is_ota_handle) (trace (run h loop w)) = 1%nat /\
  count (@is_connected_query) (trace (run h loop w)) = (if a then 0 else 1)%nat.
Proof.
  intro Ha. unfold loop.
  rewrite (run_bind_returned W h _ _ _ _ w a Ha). cbn [trace outcome world].
  destruct (loop_after_poll a (world (run h hMqttClient_loop w))) as (Ho & Hota & Hq).
  rewrite !count_app, Ho, Hota, Hq.
  rewrite (never_count W h (@is_ota_handle) bool hMqttClient_loop
             (hMqttClient_loop_never _ ota_not_callback_call eq_refl)).
  rewrite (never_count W h (@is_connected_query) bool hMqttClient_loop
             (hMqttClient_loop_never _ query_not_callback_call eq_refl)).
  repeat split; reflexivity.
Qed.
End LoopFacts.

(** C9, as the claim states it, fails: on a pass during which
    [hMqttClient.loop()] reports a live session, [ConnectMqtt] is not
    called at all. *)
Lemma loop_skips_ConnectMqtt_when_alive :
  let r := run online loop tt in
  outcome r = Returned tt /\
  effects (trace r) = [Ob MqttLoop (None, true); Ob OtaHandle tt] /\
  count (@is_connected_query) (trace r) = 0%nat /\
  count (@is_connected_query) (trace r) <> 1%nat.
Proof. repeat split; try reflexivity. cbn. discriminate. Qed.

(** C9, amended. On every pass through [loop] that runs to its end, the
    maintenance tick is invoked exactly once, and [ConnectMqtt] is invoked
    exactly once when [hMqttClient.loop()] returned false and not at all
    when it returned true. *)
Theorem loop_pass_ticks_once_connects_if_dead :
  forall (W : Type) (h : Handler W) (w : W),
    let r := run h loop w in
    outcome r = Returned tt ->
    count (@is_ota_handle) (trace r) = 1%nat /\
    count (@is_connected_query) (trace r) =
      (if snd (fst (h _ MqttLoop w)) then 0 else 1)%nat.
Proof.
  intros W h w r Hret.
  destruct (outcome (run h hMqttClient_loop w)) as [a | s] eqn:Ha.
  - destruct (loop_run W h w a Ha) as (_ & Hota & Hq).
    rewrite (hMqttClient_loop_outcome W h w a Ha) in Hq.
    split; assumption.
  - subst r. unfold loop in Hret.
    rewrite (run_bind_stopped W h _ _ _ _ w s Ha) in Hret. discriminate Hret.
Qed.

Lemma loop_pass_ticks_once_connects_if_dead_witness :
  let r := run offline loop tt in
  count (@is_ota_handle) (trace r) = 1%nat /\
  count (@is_connected_query) (trace r) = 1%nat.
Proof.
  exact (loop_pass_ticks_once_connects_if_dead unit offline tt eq_refl).
Defined.

(** A pass without a message always runs to its end. *)
Lemma loop_idle_pass_completes :
  forall (W : Type) (h : Handler W) (w : W),
    fst (fst (h _ MqttLoop w)) = None ->
    outcome (run h loop w) = Returned tt.
Proof.
  intros W h w Hnone.
  destruct (loop_run W h w _ (hMqttClient_loop_idle W h w Hnone)) as (Ho & _).
  exact Ho.
Qed.

(** A pass that delivers the command '9' restarts before the session
    check and the maintenance tick. *)
Example loop_restart_command :
  let r := run (delivering (mkMessage MQTT_TOPIC payload_9xyz 4)) loop tt in
  outcome r = Stopped Restarted /\
  count (@is_ota_handle) (trace r) = 0%nat /\
  count (@is_connected_query) (trace r) = 0%nat.
Proof. repeat split; reflexivity. Qed.

(** A pass that delivers the command '1' pulses the gate pin, then
    services the OTA handler. *)
Example loop_pulse_command :
  let r := run (delivering (mkMessage MQTT_TOPIC payload_1 1)) loop tt in
  outcome r = Returned tt /\
  effects (trace r) =
    [Ob MqttLoop (Some (mkMessage MQTT_TOPIC payload_1 1), true);
     Ob (DigitalWrite GATE_GPIO HIGH) tt; Ob (Delay 750) tt;
     Ob (DigitalWrite GATE_GPIO LOW) tt; Ob OtaHandle tt].
Proof. split; reflexivity. Qed.

(** ** NetworkEvent and SetupNetwork *)

(** C8. The observer follows the transition table: the start event sets
    the hostname to the client identifier "gatekeeper" and leaves the flag
    alone; address acquisition sets [eth_connected]; disconnect and stop
    clear it; every other event leaves the flag as it was and sets no
    hostname. *)
Theorem NetworkEvent_transition_table :
  forall (W : Type) (h : Handler W) (w : W) (event : WiFiEvent_t) (g : Globals),
    let r := run h (NetworkEvent event g) w in
    outcome r =
      Returned {| eth_connected :=
                   match event with
                   | ARDUINO_EVENT_ETH_GOT_IP => true
                   | ARDUINO_EVENT_ETH_DISCONNECTED => false
                   | ARDUINO_EVENT_ETH_STOP => false
                   | _ => eth_connected g
                   end |} /\
    hostnames (trace r) =
      match event with
      | ARDUINO_EVENT_ETH_START => [MQTT_CLIENT_ID]
      | _ => []
      end /\
    MQTT_CLIENT_ID = "gatekeeper".
Proof.
  intros W h w event [up] r. subst r.
  destruct event; cbn; try (repeat split; reflexivity).
  destruct (fst (h bool EthFullDuplex _)); cbn; repeat split; reflexivity.
Qed.

Lemma NetworkEvent_returns (event : WiFiEvent_t) (g : Globals) :
  returns (NetworkEvent event g).
Proof. destruct event; paths. Qed.

Lemma NetworkEvent_never_tick (event : WiFiEvent_t) (g : Globals) :
  never (@is_tick) (NetworkEvent event g).
Proof. destruct event; paths. Qed.

Lemma dispatch_returns (events : list WiFiEvent_t) :
  forall g, returns (dispatch events g).
Proof.
  induction events as [| event events IH]; intro g; cbn -[NetworkEvent]; [exact I |].
  apply returns_bind; [apply NetworkEvent_returns | exact IH].
Qed.

Lemma dispatch_never_tick (events : list WiFiEvent_t) :
  forall g, never (@is_tick) (dispatch events g).
Proof.
  induction events as [| event events IH]; intro g; cbn -[NetworkEvent]; [exact I |].
  apply never_bind; [apply NetworkEvent_never_tick | exact IH].
Qed.

Lemma sync_link_returns (g : Globals) : returns (sync_link g).
Proof. unfold sync_link. cbn. intro events. apply dispatch_returns. Qed.

Lemma sync_link_never_tick (g : Globals) : never (@is_tick) (sync_link g).
Proof.
  unfold sync_link. cbn. split; [reflexivity |].
  intro events. apply dispatch_never_tick.
Qed.

Section LinkFacts.
Variable W : Type.
Variable h : Handler W.

(** The wait loop entered with [nWait] seconds left either returns with
    the link up before all of them have been waited, or restarts after
    exactly [nWait] one-second waits. *)
Lemma wait_connected_run :
  forall (fuel : nat) (nWait : Z) (g : Globals) (w : W),
    nWait = Z.of_nat fuel -> (1 <= fuel)%nat ->
    let r := run h (wait_connected fuel nWait g) w in
    (exists g', outcome r = Returned g' /\ eth_connected g' = true /\
                (count (@is_tick) (trace r) < fuel)%nat) \/
    (outcome r = Stopped Restarted /\ count (@is_tick) (trace r) = fuel).
Proof.
  induction fuel as [| fuel IH]; intros nWait g w Hn Hpos; [lia |].
  intro r. subst r. cbn [wait_connected].
  destruct (returns_outcome W h _ (sync_link g) (sync_link_returns g) w) as [g1 Hg1].
  rewrite (run_bind_returned W h _ _ _ _ w g1 Hg1). cbn [trace outcome world].
  pose proof (never_count W h (@is_tick) _ (sync_link g) (sync_link_never_tick g) w) as Hs.
  rewrite count_app, Hs.
  destruct (eth_connected g1) eqn:Hup; cbn [negb].
  - left. exists g1. cbn. repeat split; [exact Hup | lia].
  - cbn -[wait_connected count Z.eqb Z.sub].
    destruct fuel as [| fuel].
    + replace (nWait - 1 =? 0)%Z with true by (symmetry; apply Z.eqb_eq; lia).
      right. cbn. split; reflexivity.
    + replace (nWait - 1 =? 0)%Z with false by (symmetry; apply Z.eqb_neq; lia).
      match goal with
      | |- context [run h (wait_connected (S fuel) (nWait - 1) g1) ?w'] =>
          destruct (IH (nWait - 1) g1 w' ltac:(lia) ltac:(lia))
            as [(g' & Ho & Hg' & Hc) | (Ho & Hc)];
          remember (run h (wait_connected (S fuel) (nWait - 1) g1) w') as r' eqn:Hr';
          clear Hr'
      end.
      * left. exists g'. unfold count in *. cbn. repeat split; try assumption. lia.
      * right. unfold count in *. cbn. split; [assumption | lia].
Qed.

(** [SetupNetwork] returns only with the link up, after at most 29
    one-second waits; otherwise it restarts after exactly 30 of them. *)
Lemma SetupNetwork_run (g : Globals) (w : W) :
  let r := run h (SetupNetwork g) w in
  (exists g', outcome r = Returned g' /\ eth_connected g' = true /\
              (count (@is_tick) (trace r) <= 29)%nat) \/
  (outcome r = Stopped Restarted /\ count (@is_tick) (trace r) = 30%nat).
Proof.
  unfold SetupNetwork. cbn -[wait_connected count].
  match goal with
  | |- context [run h (bind (wait_connected ?f ?n g) ?k) ?w'] =>
      rewrite (@run_bind _ _ W h (wait_connected f n g) k w');
      destruct (wait_connected_run f n g w' eq_refl ltac:(cbn; lia))
        as [(g' & Ho & Hg' & Hc) | (Ho & Hc)];
      remember (run h (wait_connected f n g) w') as r' eqn:Hr'; clear Hr'
  end.
  - left. exists g'. rewrite Ho. unfold count in *. cbn -[Nat.leb] in *.
    rewrite filter_app, length_app. cbn. repeat split; try assumption. lia.
  - right. rewrite Ho. unfold count in *. cbn in *. split; [reflexivity | assumption].
Qed.
End LinkFacts.

(** *** The link as a function of time *)

Section TimedLink.
(** The link acquires its address [T] milliseconds after boot. *)
Variable T : Z.


(** If the address has not been acquired when the flag is read for the
    last time, the loop restarts, and the event is still undelivered. *)
Lemma wait_connected_late :
  forall (fuel : nat) (nWait now : Z),
    nWait = Z.of_nat fuel -> (1 <= fuel)%nat ->
    now + 1000 * (nWait - 1) < T ->
    let r := run timed_link (wait_connected fuel nWait link_down)
                 (mkLinkWorld now (address_at T)) in
    outcome r = Stopped Restarted /\
    world r = mkLinkWorld (now + 1000 * nWait) (address_at T).
Proof.
  induction fuel as [| fuel IH]; intros nWait now Hn Hpos Hlate; [lia |].
  assert (Hdue : (T <=? now) = false) by (apply Z.leb_gt; lia).
  intro r. subst r. cbn [wait_connected]. unfold sync_link, address_at.
  cbn -[wait_connected Z.leb Z.add Z.sub Z.eqb Z.mul].
  unfold is_due. cbn -[wait_connected Z.leb Z.add Z.sub Z.eqb Z.mul].
  rewrite Hdue. cbn -[wait_connected Z.leb Z.add Z.sub Z.eqb Z.mul].
  destruct fuel as [| fuel].
  - replace (nWait - 1 =? 0)%Z with true by (symmetry; apply Z.eqb_eq; lia).
    cbn -[Z.add Z.mul]. split; [reflexivity |]. f_equal. lia.
  - replace (nWait - 1 =? 0)%Z with false by (symmetry; apply Z.eqb_neq; lia).
    destruct (IH (nWait - 1) (now + 1000) ltac:(lia) ltac:(lia) ltac:(lia)) as [Ho Hw].
    fold (address_at T). fold link_down. rewrite Ho, Hw.
    split; [reflexivity |]. f_equal. lia.
Qed.

(** If the address has been acquired by the time the flag is read for the
    last time, the loop returns with the link up at the first read that
    follows the acquisition. *)
Lemma wait_connected_on_time :
  forall (fuel : nat) (nWait now : Z),
    nWait = Z.of_nat fuel -> (1 <= fuel)%nat ->
    T <= now + 1000 * (nWait - 1) ->
    let r := run timed_link (wait_connected fuel nWait link_down)
                 (mkLinkWorld now (address_at T)) in
    let k := Z.of_nat (count (@is_tick) (trace r)) in
    outcome r = Returned {| eth_connected := true |} /\
    T <= now + 1000 * k /\ (k = 0 \/ now + 1000 * (k - 1) < T).
Proof.
  induction fuel as [| fuel IH]; intros nWait now Hn Hpos Htime; [lia |].
  intros r k. subst k r. cbn [wait_connected]. unfold sync_link, address_at.
  cbn -[wait_connected Z.leb Z.add Z.sub Z.eqb Z.mul count].
  unfold is_due. cbn -[wait_connected Z.leb Z.add Z.sub Z.eqb Z.mul count].
  destruct (T <=? now) eqn:Hdue.
  - apply Z.leb_le in Hdue. cbn -[Z.add Z.mul Z.sub]. repeat split; lia.
  - apply Z.leb_gt in Hdue.
    cbn -[wait_connected Z.leb Z.add Z.sub Z.eqb Z.mul count].
    destruct fuel as [| fuel]; [lia |].
    replace (nWait - 1 =? 0)%Z with false by (symmetry; apply Z.eqb_neq; lia).
    destruct (IH (nWait - 1) (now + 1000) ltac:(lia) ltac:(lia) ltac:(lia))
      as (Ho & Hk1 & Hk2).
    fold (address_at T). fold link_down.
    remember (run timed_link (wait_connected (S fuel) (nWait - 1) link_down)
                {| now := now + 1000; arrivals := address_at T |}) as r' eqn:Hr'.
    clear Hr'. split; [exact Ho |].
    unfold count in *. cbn -[Z.add Z.mul Z.sub Z.of_nat].
    rewrite Nat2Z.inj_succ. lia.
Qed.

(** The whole of [SetupNetwork], started at boot: it returns if and only
    if the address is acquired no later than 29100 ms after boot, the time
    of the last read of the flag. The thirtieth wait runs from 29100 ms
    to 30100 ms; an address acquired during it is not seen. *)
Lemma SetupNetwork_address_at :
  let r := run timed_link (SetupNetwork link_down) (mkLinkWorld 0 (address_at T)) in
  (T <= 29100 -> outcome r = Returned {| eth_connected := true |}) /\
  (29100 < T ->
   outcome r = Stopped Restarted /\ world r = mkLinkWorld 30100 (address_at T)).
Proof.
  intro r. subst r. unfold SetupNetwork.
  cbn -[wait_connected]. rewrite run_bind.
  change (Pos.to_nat 30) with 30%nat. change CONNECT_WAIT with 30.
  split; intro HT.
  - destruct (wait_connected_on_time 30 30 100 eq_refl ltac:(lia) ltac:(lia))
      as (Ho & _).
    fold link_down. fold (address_at T). rewrite Ho. reflexivity.
  - destruct (wait_connected_late 30 30 100 eq_refl ltac:(lia) ltac:(lia))
      as (Ho & Hw).
    fold link_down. fold (address_at T). rewrite Ho, Hw. split; reflexivity.
Qed.
End TimedLink.

(** If no network event is ever dispatched, [SetupNetwork] waits thirty
    times one second and restarts. *)
Lemma SetupNetwork_never_up :
  forall (W : Type) (h : Handler W) (w : W),
    (forall w' : W, fst (h _ NetPending w') = []) ->
    let r := run h (SetupNetwork {| eth_connected := false |}) w in
    outcome r = Stopped Restarted /\ count (@is_tick) (trace r) = 30%nat.
Proof.
  intros W h w Hnone r.
  assert (Hdown : forall (fuel : nat) (nWait : Z) (w' : W),
             nWait = Z.of_nat fuel -> (1 <= fuel)%nat ->
             outcome (run h (wait_connected fuel nWait {| eth_connected := false |}) w')
             = Stopped Restarted).
  { induction fuel as [| fuel IH]; intros nWait w' Hn Hpos; [lia |].
    cbn [wait_connected]. unfold sync_link.
    cbn -[wait_connected Z.eqb Z.sub]. rewrite Hnone.
    cbn -[wait_connected Z.eqb Z.sub].
    destruct fuel as [| fuel].
    - replace (nWait - 1 =? 0)%Z with true by (symmetry; apply Z.eqb_eq; lia).
      reflexivity.
    - replace (nWait - 1 =? 0)%Z with false by (symmetry; apply Z.eqb_neq; lia).
      apply IH; lia. }
  destruct (SetupNetwork_run W h {| eth_connected := false |} w)
    as [(g' & Ho & _) | (Ho & Hc)]; fold r in Ho |- *.
  - exfalso. subst r. unfold SetupNetwork in Ho.
    cbn -[wait_connected] in Ho. rewrite run_bind in Ho.
    change (Pos.to_nat 30) with 30%nat in Ho. change CONNECT_WAIT with 30 in Ho.
    rewrite (Hdown 30%nat 30 _ eq_refl ltac:(lia)) in Ho. discriminate Ho.
  - fold r in Hc. split; assumption.
Qed.

(** C2 (defect in the code). The thirtieth one-second wait runs from
    29100 ms to 30100 ms after boot. A link that acquires its address
    during that wait has come up before the thirty waits are over, and
    [SetupNetwork] restarts all the same: after the thirtieth wait the
    counter reaches zero and the restart is taken before [eth_connected]
    is read again, so the acquisition is never looked at. *)
Theorem SetupNetwork_late_address_restarts :
  forall T : Z,
    29100 < T <= 30100 ->
    let r := run timed_link (SetupNetwork link_down)
                 (mkLinkWorld 0 (address_at T)) in
    outcome r = Stopped Restarted /\
    count (@is_tick) (trace r) = 30%nat /\
    world r = mkLinkWorld 30100 (address_at T).
Proof.
  intros T [Hlate _] r.
  destruct (proj2 (SetupNetwork_address_at T) Hlate) as [Ho Hw].
  fold r in Ho, Hw. split; [exact Ho |]. split; [| exact Hw].
  destruct (SetupNetwork_run LinkWorld timed_link link_down
              (mkLinkWorld 0 (address_at T)))
    as [(g' & Ho' & _) | (_ & Hc)].
  - fold r in Ho'. rewrite Ho in Ho'. discriminate Ho'.
  - exact Hc.
Qed.

Lemma SetupNetwork_late_address_restarts_witness :
  let r := run timed_link (SetupNetwork link_down)
               (mkLinkWorld 0 (address_at 29600)) in
  outcome r = Stopped Restarted /\
  count (@is_tick) (trace r) = 30%nat /\
  world r = mkLinkWorld 30100 (address_at 29600).
Proof.
  apply (SetupNetwork_late_address_restarts 29600). lia.
Defined.

(** The address acquired 29600 ms after boot, evaluated. *)
Example SetupNetwork_address_at_29600 :
  let r := run timed_link (SetupNetwork {| eth_connected := false |})
               (mkLinkWorld 0 [(29600, ARDUINO_EVENT_ETH_GOT_IP)]) in
  outcome r = Stopped Restarted /\
  count (@is_tick) (trace r) = 30%nat /\
  world r = mkLinkWorld 30100 [(29600, ARDUINO_EVENT_ETH_GOT_IP)].
Proof. repeat split; vm_compute; reflexivity. Qed.

(** The address acquired at 29100 ms, the instant of the last read, is
    seen: the call returns after 29 waits. *)
Example SetupNetwork_last_read :
  let r := run timed_link (SetupNetwork {| eth_connected := false |})
               (mkLinkWorld 0 [(29100, ARDUINO_EVENT_ETH_GOT_IP)]) in
  outcome r = Returned {| eth_connected := true |} /\
  count (@is_tick) (trace r) = 29%nat.
Proof. split; vm_compute; reflexivity. Qed.

(** The link already up when [ETH.begin()] returns: no wait at all. *)
Example SetupNetwork_immediate :
  let r := run timed_link (SetupNetwork {| eth_connected := false |})
               (mkLinkWorld 0 [(50, ARDUINO_EVENT_ETH_START);
                               (60, ARDUINO_EVENT_ETH_CONNECTED);
                               (90, ARDUINO_EVENT_ETH_GOT_IP)]) in
  outcome r = Returned {| eth_connected := true |} /\
  count (@is_tick) (trace r) = 0%nat /\
  hostnames (trace r) = [MQTT_CLIENT_ID].
Proof. repeat split; vm_compute; reflexivity. Qed.

(** The link that comes up and drops again within one wait is not seen. *)
Example SetupNetwork_flapping :
  let r := run timed_link (SetupNetwork {| eth_connected := false |})
               (mkLinkWorld 0 [(1200, ARDUINO_EVENT_ETH_GOT_IP);
                               (1800, ARDUINO_EVENT_ETH_DISCONNECTED)]) in
  outcome r = Stopped Restarted /\ count (@is_tick) (trace r) = 30%nat.
Proof. split; vm_compute; reflexivity. Qed.

(** ** The boot sequence *)





(** * Further properties of the firmware *)

Lemma blocked_ms_app (t1 t2 : list Obs) :
  blocked_ms (t1 ++ t2) = blocked_ms t1 + blocked_ms t2.
Proof.
  induction t1 as [| [R e r] t1 IH]; simpl; [reflexivity |].
  destruct e; simpl; rewrite ?IH; lia.
Qed.

Lemma pin_writes_app (pin : Z) (t1 t2 : list Obs) :
  pin_writes pin (t1 ++ t2) = pin_writes pin t1 ++ pin_writes pin t2.
Proof.
  induction t1 as [| [R e r] t1 IH]; simpl; [reflexivity |].
  destruct e; simpl; rewrite ?IH; try reflexivity.
  destruct (pin0 =? pin); rewrite ?IH; reflexivity.
Qed.

Lemma failed_attempts_app (t1 t2 : list Obs) :
  failed_attempts (t1 ++ t2) = (failed_attempts t1 + failed_attempts t2)%nat.
Proof. unfold failed_attempts. rewrite filter_app, length_app. reflexivity. Qed.

Lemma blocked_ms_effects (t : list Obs) : blocked_ms (effects t) = blocked_ms t.
Proof.
  unfold effects. induction t as [| [R e r] t IH]; simpl; [reflexivity |].
  destruct e; simpl; rewrite ?IH; reflexivity.
Qed.

Lemma pin_writes_effects (pin : Z) (t : list Obs) :
  pin_writes pin (effects t) = pin_writes pin t.
Proof.
  unfold effects. induction t as [| [R e r] t IH]; simpl; [reflexivity |].
  destruct e; simpl; rewrite ?IH; reflexivity.
Qed.

Lemma failed_attempts_effects (t : list Obs) :
  failed_attempts (effects t) = failed_attempts t.
Proof.
  unfold failed_attempts, effects.
  induction t as [| [R e r] t IH]; simpl; [reflexivity |].
  destruct e; simpl; rewrite ?IH; try reflexivity.
  destruct r; simpl; rewrite ?IH; reflexivity.
Qed.

Lemma blocked_ms_rounds (rcs : list Z) :
  blocked_ms (flat_map failed_round rcs) = 2000 * Z.of_nat (List.length rcs).
Proof.
  induction rcs as [| rc rcs IH]; [reflexivity |].
  cbn [flat_map List.length]. rewrite blocked_ms_app, IH, Nat2Z.inj_succ.
  change (blocked_ms (failed_round rc)) with 2000. lia.
Qed.

Lemma failed_attempts_rounds (rcs : list Z) :
  failed_attempts (flat_map failed_round rcs) = List.length rcs.
Proof.
  induction rcs as [| rc rcs IH]; [reflexivity |].
  cbn [flat_map List.length]. rewrite failed_attempts_app, IH. reflexivity.
Qed.

Lemma pin_writes_rounds (pin : Z) (rcs : list Z) :
  pin_writes pin (flat_map failed_round rcs) = [].
Proof.
  induction rcs as [| rc rcs IH]; [reflexivity |].
  cbn [flat_map]. rewrite pin_writes_app, IH. reflexivity.
Qed.

Lemma blocks_at_most_weaken (A : Type) (c : Prog A) :
  forall b b' : Z, b <= b' -> blocks_at_most b c -> blocks_at_most b' c.
Proof.
  induction c as [a | s | R e k IH]; intros b b' Hle Hc; simpl in *; try lia.
  intro r. apply (IH r (b - delay_cost e)); [lia | apply Hc].
Qed.

Lemma blocks_at_most_bind (A B : Type) (c : Prog A) (f : A -> Prog B) :
  forall b1 b2 : Z,
    0 <= b2 ->
    blocks_at_most b1 c -> (forall a, blocks_at_most b2 (f a)) ->
    blocks_at_most (b1 + b2) (bind c f).
Proof.
  induction c as [a | s | R e k IH]; intros b1 b2 Hb2 Hc Hf; simpl in *.
  - apply (blocks_at_most_weaken _ _ b2); [lia | apply Hf].
  - lia.
  - intro r. replace (b1 + b2 - delay_cost e) with (b1 - delay_cost e + b2) by lia.
    apply IH; [exact Hb2 | apply Hc | exact Hf].
Qed.

Lemma blocks_at_most_run (W : Type) (h : Handler W) (A : Type) (c : Prog A) :
  forall (b : Z) (w : W),
    blocks_at_most b c -> blocked_ms (trace (run h c w)) <= b.
Proof.
  induction c as [a | s | R e k IH]; intros b w Hc; simpl in *; try exact Hc.
  specialize (IH _ _ (snd (h R e w)) (Hc (fst (h R e w)))).
  destruct e; simpl in *; lia.
Qed.

Lemma count_zero_blocked (t : list Obs) :
  count (@is_delay) t = 0%nat -> blocked_ms t = 0.
Proof.
  unfold count. induction t as [| [R e r] t IH]; simpl; [reflexivity |].
  destruct e; simpl; try exact IH. discriminate.
Qed.

Lemma count_zero_pin_writes (pin : Z) (t : list Obs) :
  count (@is_digital_write) t = 0%nat -> pin_writes pin t = [].
Proof.
  unfold count. induction t as [| [R e r] t IH]; simpl; [reflexivity |].
  destruct e; simpl; try exact IH. discriminate.
Qed.

Lemma never_effects (W : Type) (h : Handler W) (A : Type) (c : Prog A) (w : W) :
  never (fun R e => negb (is_console e)) c -> effects (trace (run h c w)) = [].
Proof.
  revert w. induction c as [a | s | R e k IH]; intros w Hn; simpl in *;
    try reflexivity.
  destruct Hn as [He Hk]. unfold effects in *. simpl.
  rewrite He. apply IH, Hk.
Qed.

(** ** MqttCallback, whatever it is handed *)

Section MqttCallbackAnyArguments.
Variable W : Type.
Variable h : Handler W.

Lemma print_payload_outcome (payload : list byte) :
  forall (n i : nat) (w : W),
    outcome (run h (print_payload payload i n) w) = Returned tt \/
    exists j, outcome (run h (print_payload payload i n) w) = Stopped (OutOfBounds j).
Proof.
  induction n as [| n IH]; intros i w; cbn; [left; reflexivity |].
  unfold read_byte. destruct (nth_error payload i) as [c |]; cbn.
  - apply IH.
  - right. exists i. reflexivity.
Qed.

(** Console output aside, a call does one of three things, and it ends
    by returning, by a restart, or at a read outside the payload. *)
Lemma MqttCallback_shapes (topic : string) (payload : list byte) (length : N) (w : W) :
  let r := run h (MqttCallback topic payload length) w in
  (effects (trace r) = [] /\
   (outcome r = Returned tt \/ outcome r = Stopped Restarted \/
    exists j, outcome r = Stopped (OutOfBounds j))) \/
  (effects (trace r) = [Ob (DigitalWrite GATE_GPIO LOW) tt] /\
   outcome r = Returned tt) \/
  (effects (trace r) =
     [Ob (DigitalWrite GATE_GPIO HIGH) tt; Ob (Delay 750) tt;
      Ob (DigitalWrite GATE_GPIO LOW) tt] /\
   outcome r = Returned tt).
Proof.
  intro r. subst r. unfold MqttCallback. cbn -[print_payload].
  rewrite run_bind.
  match goal with
  | |- context [run h (print_payload payload 0 ?n) ?w0] =>
      pose proof (never_effects W h unit (print_payload payload 0 n) w0
                    (print_payload_never _ payload (fun _ => eq_refl) n 0%nat)) as He;
      destruct (print_payload_outcome payload n 0 w0) as [Ho | [j Ho]];
      remember (run h (print_payload payload 0 n) w0) as rp eqn:Hrp; clear Hrp
  end.
  - rewrite Ho. cbn -[print_payload]. unfold read_byte.
    destruct (nth_error payload 0) as [c |].
    + cbn. match goal with |- context [run h _ ?w1] => generalize w1 end. intro w1.
      rewrite !effects_app, He. unfold effects.
      destruct c; cbn;
        repeat match goal with
               | |- context [fst (h unit ?e ?x)] =>
                   rewrite (unit_eq_tt (fst (h unit e x)))
               end;
        first [ left; split; [reflexivity | left; reflexivity]
              | left; split; [reflexivity | right; left; reflexivity]
              | right; left; split; reflexivity
              | right; right; split; reflexivity ].
    + cbn. left. rewrite !effects_app, He. split; [reflexivity |].
      right. right. exists 0%nat. reflexivity.
  - rewrite Ho. cbn. left. split; [| right; right; exists j; reflexivity].
    unfold effects in *. cbn. exact He.
Qed.
End MqttCallbackAnyArguments.




(** ** ConnectMqtt: how long it blocks *)

Lemma ConnectMqtt_never_writes : never (@is_digital_write) ConnectMqtt.
Proof. paths. Qed.

(** X2. A call of [ConnectMqtt] always returns to its caller: it never
    restarts the device. It spends 2000 ms in [delay] for every connect
    attempt that failed and none otherwise, so at most 10000 ms, and it
    writes no pin. *)
Theorem ConnectMqtt_blocks_per_failure :
  forall (W : Type) (h : Handler W) (w : W),
    let r := run h ConnectMqtt w in
    (exists ok : bool, outcome r = Returned ok) /\
    blocked_ms (trace r) = 2000 * Z.of_nat (failed_attempts (trace r)) /\
    (failed_attempts (trace r) <= 5)%nat /\
    blocked_ms (trace r) <= 10000 /\
    count (@is_digital_write) (trace r) = 0%nat.
Proof.
  intros W h w r.
  assert (Hshape : blocked_ms (trace r) = 2000 * Z.of_nat (failed_attempts (trace r)) /\
                   (failed_attempts (trace r) <= 5)%nat).
  { destruct (fst (h bool MqttConnected w)) eqn:Hq.
    - destruct (ConnectMqtt_alive_run W h w Hq) as [Ht _]. fold r in Ht.
      rewrite Ht. split; [reflexivity | cbn; lia].
    - destruct (ConnectMqtt_dead_run W h w Hq) as (rcs & ok & He & _ & Hl).
      fold r in He.
      rewrite <- (blocked_ms_effects (trace r)), <- (failed_attempts_effects (trace r)), He.
      change (Ob MqttConnected false :: flat_map failed_round rcs ++
                (if ok then [connect_ok] else []))
        with ([Ob MqttConnected false] ++ flat_map failed_round rcs ++
                (if ok then [connect_ok] else [])).
      rewrite !blocked_ms_app, !failed_attempts_app.
      rewrite blocked_ms_rounds, failed_attempts_rounds.
      destruct ok; cbn -[Z.mul Z.of_nat Z.add Nat.add]; split; lia. }
  destruct Hshape as [Hb Hf].
  split; [apply returns_outcome, ConnectMqtt_returns |].
  split; [exact Hb |]. split; [exact Hf |]. split; [lia |].
  apply never_count. exact ConnectMqtt_never_writes.
Qed.

(** ** One pass of the loop, and many *)

(** Follow every answer of the environment, keeping account of the time
    left to block. *)
Ltac budget :=
  repeat (cbn;
          match goal with
          | |- forall _ : bool, _ => intros [|]
          | |- forall _, _ => intro
          | |- (_ <= _)%Z => lia
          end).

Lemma print_payload_no_delay (payload : list byte) :
  forall (n i : nat) (b : Z), 0 <= b -> blocks_at_most b (print_payload payload i n).
Proof.
  induction n as [| n IH]; intros i b Hb; cbn; [exact Hb |].
  unfold read_byte. destruct (nth_error payload i); cbn; [| exact Hb].
  intros _. apply IH. lia.
Qed.

Lemma MqttCallback_blocks (topic : string) (payload : list byte) (length : N) :
  blocks_at_most 750 (MqttCallback topic payload length).
Proof.
  unfold MqttCallback. cbn -[print_payload]. intros _ _ _.
  apply (blocks_at_most_weaken _ _ (0 + 750)); [lia |].
  apply blocks_at_most_bind; [lia | apply print_payload_no_delay; lia |].
  intros _. cbn. intros _. unfold read_byte.
  destruct (nth_error payload 0) as [c |]; [| cbn; lia].
  destruct c; budget.
Qed.

Lemma ConnectMqtt_blocks : blocks_at_most 10000 ConnectMqtt.
Proof. budget. Qed.

Lemma hMqttClient_loop_blocks : blocks_at_most 750 hMqttClient_loop.
Proof.
  unfold hMqttClient_loop. cbn -[MqttCallback]. intros [[m |] alive]; cbn -[MqttCallback].
  - apply (blocks_at_most_weaken _ _ (750 + 0)); [lia |].
    apply blocks_at_most_bind; [lia | apply MqttCallback_blocks | intros _; cbn; lia].
  - lia.
Qed.

Lemma loop_blocks : blocks_at_most 10750 loop.
Proof.
  unfold loop.
  apply (blocks_at_most_weaken _ _ (750 + 10000)); [lia |].
  apply blocks_at_most_bind; [lia | apply hMqttClient_loop_blocks |].
  intros alive.
  apply (blocks_at_most_weaken _ _ (10000 + 0)); [lia |].
  apply blocks_at_most_bind; [lia | | intros _; cbn; intros _; lia].
  destruct alive; cbn -[ConnectMqtt]; [lia |].
  apply (blocks_at_most_weaken _ _ (10000 + 0)); [lia |].
  apply blocks_at_most_bind; [lia | apply ConnectMqtt_blocks | intros _; cbn; lia].
Qed.

Section LoopPass.
Variable W : Type.
Variable h : Handler W.

Lemma MqttCallback_pin_writes (topic : string) (payload : list byte) (length : N) (w : W) :
  let t := trace (run h (MqttCallback topic payload length) w) in
  pin_writes GATE_GPIO t = [] \/ pin_writes GATE_GPIO t = [LOW] \/
  pin_writes GATE_GPIO t = [HIGH; LOW].
Proof.
  intro t. subst t. rewrite <- pin_writes_effects.
  destruct (MqttCallback_shapes W h topic payload length w)
    as [[He _] | [[He _] | [He _]]]; rewrite He; auto.
Qed.

Lemma MqttCallback_stops (topic : string) (payload : list byte) (length : N) (w : W) s :
  outcome (run h (MqttCallback topic payload length) w) = Stopped s ->
  s <> LoopFuel.
Proof.
  intro Hs.
  destruct (MqttCallback_shapes W h topic payload length w)
    as [[_ [Ho | [Ho | [j Ho]]]] | [[_ Ho] | [_ Ho]]];
    rewrite Ho in Hs; inversion Hs; discriminate.
Qed.

Lemma hMqttClient_loop_pin_writes (w : W) :
  let t := trace (run h hMqttClient_loop w) in
  pin_writes GATE_GPIO t = [] \/ pin_writes GATE_GPIO t = [LOW] \/
  pin_writes GATE_GPIO t = [HIGH; LOW].
Proof.
  unfold hMqttClient_loop. cbn -[MqttCallback pin_writes].
  destruct (fst (h _ MqttLoop w)) as [[m |] alive]; cbn -[MqttCallback pin_writes].
  - rewrite run_bind.
    match goal with
    | |- context [run h (MqttCallback ?a ?b ?c) ?w'] =>
        pose proof (MqttCallback_pin_writes a b c w') as Hp; cbn zeta in Hp;
        remember (run h (MqttCallback a b c) w') as rc eqn:Hrc; clear Hrc
    end.
    destruct (outcome rc); cbn -[pin_writes];
      change (pin_writes GATE_GPIO (?x :: ?t)) with (pin_writes GATE_GPIO t) in |- *.
    + cbn. rewrite app_nil_r. exact Hp.
    + cbn. exact Hp.
  - cbn. left. reflexivity.
Qed.

Lemma hMqttClient_loop_stops (w : W) s :
  outcome (run h hMqttClient_loop w) = Stopped s -> s <> LoopFuel.
Proof.
  unfold hMqttClient_loop. cbn -[MqttCallback].
  destruct (fst (h _ MqttLoop w)) as [[m |] alive]; cbn -[MqttCallback].
  - rewrite run_bind.
    destruct (outcome (run h (MqttCallback (msg_topic m) (msg_payload m)
                                (msg_length m)) _)) as [[] | s'] eqn:Hc; cbn.
    + discriminate.
    + intro Hs. inversion Hs. subst s'. eapply MqttCallback_stops. exact Hc.
  - discriminate.
Qed.

Lemma loop_tail_never_writes (alive : bool) :
  never (@is_digital_write)
    ((if negb alive then _ <- ConnectMqtt ;; Ret tt else Ret tt) ;;
     trigger OtaHandle).
Proof. destruct alive; paths. Qed.
End LoopPass.

(** X3. One pass through [loop] spends at most 10750 ms in [delay] and
    never leaves HIGH as the last level written to the gate pin. A pass
    that does not run to its end stopped inside the message callback, at
    a restart or at a read outside the payload, and has then neither
    checked the session nor run the OTA handler. *)
Theorem loop_pass_bounds :
  forall (W : Type) (h : Handler W) (w : W),
    let r := run h loop w in
    blocked_ms (trace r) <= 10750 /\
    (pin_writes GATE_GPIO (trace r) = [] \/
     pin_writes GATE_GPIO (trace r) = [LOW] \/
     pin_writes GATE_GPIO (trace r) = [HIGH; LOW]) /\
    match outcome r with
    | Returned _ => count (@is_ota_handle) (trace r) = 1%nat
    | Stopped s =>
        s <> LoopFuel /\
        count (@is_ota_handle) (trace r) = 0%nat /\
        count (@is_connected_query) (trace r) = 0%nat
    end.
Proof.
  intros W h w r. split; [apply blocks_at_most_run, loop_blocks |].
  pose proof (hMqttClient_loop_pin_writes W h w) as Hp. cbn zeta in Hp.
  subst r. unfold loop.
  destruct (outcome (run h hMqttClient_loop w)) as [alive | s] eqn:Ho.
  - rewrite (run_bind_returned W h _ _ _ _ w alive Ho). cbn [trace outcome].
    split.
    + rewrite pin_writes_app.
      rewrite (count_zero_pin_writes GATE_GPIO
                 (trace (run h _ (world (run h hMqttClient_loop w))))).
      * rewrite app_nil_r. exact Hp.
      * apply never_count. apply loop_tail_never_writes.
    + destruct (loop_run W h w alive Ho) as (Hret & Hota & _).
      unfold loop in Hret, Hota.
      rewrite (run_bind_returned W h _ _ _ _ w alive Ho) in Hret, Hota.
      cbn [trace outcome] in Hret, Hota. rewrite Hret. exact Hota.
  - rewrite (run_bind_stopped W h _ _ _ _ w s Ho). cbn [trace outcome].
    split; [exact Hp |]. split; [exact (hMqttClient_loop_stops W h w s Ho) |].
    split; apply never_count; apply hMqttClient_loop_never;
      first [exact ota_not_callback_call | exact query_not_callback_call | reflexivity].
Qed.

(** X4. While the session stays alive and no message arrives, every pass
    through [loop] is the client's own loop call followed by the OTA
    handler: [ConnectMqtt] is never entered and no time is spent in
    [delay], however many passes are made. *)
Theorem loop_idle_passes :
  forall (W : Type) (h : Handler W),
    (forall w : W, fst (h _ MqttLoop w) = (None, true)) ->
    forall (n : nat) (w : W),
      let r := run h (calls n loop) w in
      outcome r = Returned (repeat tt n) /\
      effects (trace r) =
        List.concat (repeat [Ob MqttLoop (None, true); Ob OtaHandle tt] n) /\
      blocked_ms (trace r) = 0 /\
      count (@is_connected_query) (trace r) = 0%nat.
Proof.
  intros W h Hidle.
  assert (Hpass : forall w : W,
             outcome (run h loop w) = Returned tt /\
             trace (run h loop w) = [Ob MqttLoop (None, true); Ob OtaHandle tt]).
  { intro w. unfold loop, hMqttClient_loop. cbn. rewrite Hidle. cbn.
    rewrite !(unit_eq_tt (fst (h unit OtaHandle _))). split; reflexivity. }
  induction n as [| n IH]; intros w r; subst r.
  - cbn. repeat split; reflexivity.
  - destruct (Hpass w) as [Ho Ht]. cbn [calls].
    rewrite (run_bind_returned W h _ _ _ _ w tt Ho). cbn [trace outcome world].
    set (w1 := world (run h loop w)).
    specialize (IH w1). cbn zeta in IH. destruct IH as (IHo & IHe & IHb & IHq).
    rewrite (run_bind_returned W h _ _ _ _ w1 (repeat tt n) IHo).
    cbn [trace outcome world run]. rewrite app_nil_r.
    rewrite effects_app, blocked_ms_app, count_app, IHe, IHb, IHq, Ht.
    repeat split; reflexivity.
Qed.

Lemma loop_idle_passes_witness :
  let r := run online (calls 4 loop) tt in
  outcome r = Returned (repeat tt 4) /\
  effects (trace r) =
    List.concat (repeat [Ob MqttLoop (None, true); Ob OtaHandle tt] 4) /\
  blocked_ms (trace r) = 0 /\
  count (@is_connected_query) (trace r) = 0%nat.
Proof.
  exact (loop_idle_passes unit online (fun _ => eq_refl) 4%nat tt).
Defined.

(** X5. While the broker cannot be reached, every pass through [loop]
    makes five connect attempts, spends 10000 ms in [delay] and still
    runs the OTA handler; the passes go on without a restart, so after
    [n] passes there have been [5 * n] attempts. *)
Theorem loop_unreachable_passes :
  forall (W : Type) (h : Handler W),
    (forall w : W, fst (h _ MqttLoop w) = (None, false)) ->
    (forall w : W, fst (h bool MqttConnected w) = false) ->
    (forall (id : string) (w : W), fst (h bool (MqttConnect id) w) = false) ->
    forall (n : nat) (w : W),
      let r := run h (calls n loop) w in
      outcome r = Returned (repeat tt n) /\
      count (@is_connect) (trace r) = (5 * n)%nat /\
      blocked_ms (trace r) = 10000 * Z.of_nat n /\
      count (@is_ota_handle) (trace r) = n.
Proof.
  intros W h Hloop Hdead Hfail.
  assert (Hpass : forall w : W,
             outcome (run h loop w) = Returned tt /\
             count (@is_connect) (trace (run h loop w)) = 5%nat /\
             blocked_ms (trace (run h loop w)) = 10000 /\
             count (@is_ota_handle) (trace (run h loop w)) = 1%nat).
  { intro w. unfold loop, hMqttClient_loop, ConnectMqtt. cbn. rewrite Hloop. cbn.
    rewrite Hdead. cbn.
    do 5 (rewrite Hfail; cbn).
    rewrite !(unit_eq_tt (fst (h unit OtaHandle _))). repeat split; reflexivity. }
  induction n as [| n IH]; intros w r; subst r.
  - cbn. repeat split; reflexivity.
  - destruct (Hpass w) as (Ho & Hc & Hb & Hota). cbn [calls].
    rewrite (run_bind_returned W h _ _ _ _ w tt Ho). cbn [trace outcome world].
    set (w1 := world (run h loop w)).
    specialize (IH w1). cbn zeta in IH. destruct IH as (IHo & IHc & IHb & IHota).
    rewrite (run_bind_returned W h _ _ _ _ w1 (repeat tt n) IHo).
    cbn [trace outcome world run]. rewrite app_nil_r.
    rewrite blocked_ms_app, !count_app, IHc, IHb, IHota, Hc, Hb, Hota.
    repeat split; try reflexivity; lia.
Qed.

Lemma loop_unreachable_passes_witness :
  let r := run offline (calls 3 loop) tt in
  outcome r = Returned (repeat tt 3) /\
  count (@is_connect) (trace r) = (5 * 3)%nat /\
  blocked_ms (trace r) = 10000 * Z.of_nat 3 /\
  count (@is_ota_handle) (trace r) = 3%nat.
Proof.
  exact (loop_unreachable_passes unit offline
           (fun _ => eq_refl) (fun _ => eq_refl) (fun _ _ => eq_refl) 3%nat tt).
Defined.

(** ** SetupNetwork: what it calls and how long it blocks *)

Lemma NetworkEvent_never (p : forall R : Type, Ev R -> bool)
      (event : WiFiEvent_t) (g : Globals) :
  (forall (R : Type) (e : Ev R), is_network_call e = true -> p R e = false) ->
  never p (NetworkEvent event g).
Proof.
  intro Hp. destruct event;
    repeat (cbn;
            match goal with
            | |- True => exact I
            | |- _ /\ _ => split
            | |- p _ _ = false => apply Hp; reflexivity
            | |- forall _ : bool, _ => intros [|]
            | |- forall _, _ => intro
            end).
Qed.

Lemma sync_link_never (p : forall R : Type, Ev R -> bool) (g : Globals) :
  (forall (R : Type) (e : Ev R), is_network_call e = true -> p R e = false) ->
  never p (sync_link g).
Proof.
  intro Hp. unfold sync_link. cbn. split; [apply Hp; reflexivity |].
  intro events. revert g.
  induction events as [| event events IH]; intro g; cbn -[NetworkEvent]; [exact I |].
  apply never_bind; [apply NetworkEvent_never, Hp | exact IH].
Qed.

Lemma wait_connected_never (p : forall R : Type, Ev R -> bool) :
  (forall (R : Type) (e : Ev R), is_network_call e = true -> p R e = false) ->
  forall (fuel : nat) (nWait : Z) (g : Globals),
    never p (wait_connected fuel nWait g).
Proof.
  intro Hp. induction fuel as [| fuel IH]; intros nWait g; cbn [wait_connected];
    (apply never_bind; [apply sync_link_never, Hp |]);
    intro g1; destruct (eth_connected g1); cbn -[wait_connected Z.eqb Z.sub];
    try exact I.
  split; [apply Hp; reflexivity | intros _].
  split; [apply Hp; reflexivity | intros _].
  destruct (nWait - 1 =? 0)%Z; [| apply IH].
  cbn. repeat (split; [apply Hp; reflexivity | intros _]). exact I.
Qed.

Lemma SetupNetwork_never (p : forall R : Type, Ev R -> bool) (g : Globals) :
  (forall (R : Type) (e : Ev R), is_network_call e = true -> p R e = false) ->
  never p (SetupNetwork g).
Proof.
  intro Hp. unfold SetupNetwork. cbn -[wait_connected].
  repeat (split; [apply Hp; reflexivity | intros _]).
  apply never_bind; [apply wait_connected_never, Hp |].
  intro g1. cbn. split; [apply Hp; reflexivity | intros _; exact I].
Qed.

Lemma mqtt_call_not_network_call (R : Type) (e : Ev R) :
  is_network_call e = true -> is_mqtt_call e = false.
Proof. destruct e; simpl; congruence. Qed.

Section SetupNetworkTime.
Variable W : Type.
Variable h : Handler W.

Lemma sync_link_blocked (g : Globals) (w : W) :
  blocked_ms (trace (run h (sync_link g) w)) = 0.
Proof.
  unfold sync_link. cbn -[dispatch].
  generalize (snd (h _ NetPending w)). generalize (fst (h _ NetPending w)).
  intros events. revert g.
  induction events as [| event events IH]; intros g w'; cbn -[NetworkEvent];
    [reflexivity |].
  rewrite run_bind.
  assert (Hev : forall w0, blocked_ms (trace (run h (NetworkEvent event g) w0)) = 0).
  { intro w0. destruct event; cbn; try reflexivity.
    destruct (fst (h bool EthFullDuplex _)); reflexivity. }
  destruct (outcome (run h (NetworkEvent event g) w')) as [g1 | s]; cbn [trace].
  - rewrite blocked_ms_app, Hev, IH. reflexivity.
  - apply Hev.
Qed.

(** The wait loop blocks one second per wait and not otherwise. *)
Lemma wait_connected_blocked :
  forall (fuel : nat) (nWait : Z) (g : Globals) (w : W),
    blocked_ms (trace (run h (wait_connected fuel nWait g) w)) =
    1000 * Z.of_nat (count (@is_tick) (trace (run h (wait_connected fuel nWait g) w))).
Proof.
  induction fuel as [| fuel IH]; intros nWait g w; cbn [wait_connected];
    rewrite run_bind;
    pose proof (sync_link_blocked g w) as Hb;
    pose proof (never_count W h (@is_tick) _ (sync_link g) (sync_link_never_tick g) w) as Hc;
    destruct (outcome (run h (sync_link g) w)) as [g1 | s]; cbn [trace];
    try (rewrite Hb, Hc; reflexivity);
    rewrite blocked_ms_app, count_app, Hb, Hc;
    destruct (eth_connected g1); cbn -[wait_connected Z.eqb Z.sub Z.mul Z.of_nat Z.add count];
    try reflexivity.
  destruct (nWait - 1 =? 0)%Z.
  - reflexivity.
  - match goal with
    | |- context [run h (wait_connected fuel ?n g1) ?w'] =>
        specialize (IH n g1 w');
        remember (run h (wait_connected fuel n g1) w') as r' eqn:Hr'; clear Hr'
    end.
    unfold count in *. cbn -[Z.mul Z.of_nat Z.add]. rewrite IH, Nat2Z.inj_succ. lia.
Qed.
End SetupNetworkTime.

(** X6. In every environment [SetupNetwork] ends in one of two ways: it
    returns with [eth_connected] set after at most 29 one-second waits, or
    it restarts the device after exactly 30 of them. Its time in [delay]
    is the initial 100 ms plus 1000 ms per wait, and it makes no call to
    the MQTT client. *)
Theorem SetupNetwork_outcome :
  forall (W : Type) (h : Handler W) (w : W) (g : Globals),
    let r := run h (SetupNetwork g) w in
    let waits := count (@is_tick) (trace r) in
    ((exists g', outcome r = Returned g' /\ eth_connected g' = true /\
                 (waits <= 29)%nat) \/
     (outcome r = Stopped Restarted /\ waits = 30%nat)) /\
    blocked_ms (trace r) = 100 + 1000 * Z.of_nat waits /\
    count (@is_mqtt_call) (trace r) = 0%nat.
Proof.
  intros W h w g r waits. subst waits. split; [| split].
  - exact (SetupNetwork_run W h g w).
  - subst r. unfold SetupNetwork. cbn -[wait_connected count Z.mul Z.of_nat Z.add].
    rewrite run_bind.
    match goal with
    | |- context [run h (wait_connected ?f ?n g) ?w'] =>
        pose proof (wait_connected_blocked W h f n g w') as Hb;
        remember (run h (wait_connected f n g) w') as r' eqn:Hr'; clear Hr'
    end.
    destruct (outcome r'); cbn -[count Z.mul Z.of_nat Z.add];
      unfold count in *; cbn -[Z.mul Z.of_nat Z.add];
      rewrite ?filter_app, ?length_app, ?blocked_ms_app; cbn -[Z.mul Z.of_nat Z.add];
      rewrite ?Nat.add_0_r; lia.
  - apply never_count. apply SetupNetwork_never. exact mqtt_call_not_network_call.
Qed.

(** X7. A link that acquires its address [T] ms after boot, with
    [T <= 29100]: [SetupNetwork] returns with the flag set, and it does
    so at the first read of the flag that follows the acquisition, the
    reads being 100 ms, 1100 ms, 2100 ms, ... after boot. *)
Theorem SetupNetwork_returns_at_first_read :
  forall T : Z,
    T <= 29100 ->
    let r := run timed_link (SetupNetwork link_down) (mkLinkWorld 0 (address_at T)) in
    let k := Z.of_nat (count (@is_tick) (trace r)) in
    outcome r = Returned {| eth_connected := true |} /\
    T <= 100 + 1000 * k /\
    (k = 0 \/ 100 + 1000 * (k - 1) < T).
Proof.
  intros T HT r k. subst k r. unfold SetupNetwork.
  cbn -[wait_connected count Z.mul Z.of_nat Z.add Z.sub].
  rewrite run_bind.
  change (Pos.to_nat 30) with 30%nat. change CONNECT_WAIT with 30.
  change (0 + 100) with 100.
  destruct (wait_connected_on_time T 30 30 100 eq_refl ltac:(lia) ltac:(lia))
    as (Ho & Hk1 & Hk2).
  fold link_down in Ho, Hk1, Hk2 |- *. fold (address_at T) in Ho, Hk1, Hk2 |- *.
  remember (run timed_link (wait_connected 30 30 link_down)
              {| now := 100; arrivals := address_at T |}) as rw eqn:Hrw.
  clear Hrw. rewrite Ho. cbn -[count Z.mul Z.of_nat Z.add Z.sub].
  unfold count in *. cbn -[Z.mul Z.of_nat Z.add Z.sub].
  rewrite filter_app, length_app. cbn -[Z.mul Z.of_nat Z.add Z.sub].
  rewrite Nat.add_0_r. split; [reflexivity |]. split; assumption.
Qed.

Lemma SetupNetwork_returns_at_first_read_witness :
  let r := run timed_link (SetupNetwork link_down) (mkLinkWorld 0 (address_at 2500)) in
  let k := Z.of_nat (count (@is_tick) (trace r)) in
  outcome r = Returned {| eth_connected := true |} /\
  2500 <= 100 + 1000 * k /\
  (k = 0 \/ 100 + 1000 * (k - 1) < 2500).
Proof.
  apply (SetupNetwork_returns_at_first_read 2500). lia.
Defined.

(** ** A batch of network events *)

Section Batches.
Variable W : Type.
Variable h : Handler W.

Lemma NetworkEvent_outcome (event : WiFiEvent_t) (g : Globals) (w : W) :
  outcome (run h (NetworkEvent event g) w) =
  Returned {| eth_connected := link_after (eth_connected g) event |}.
Proof.
  destruct g as [up]. destruct event; cbn; try reflexivity.
  destruct (fst (h bool EthFullDuplex _)); reflexivity.
Qed.

Lemma dispatch_outcome (events : list WiFiEvent_t) :
  forall (g : Globals) (w : W),
    outcome (run h (dispatch events g) w) =
    Returned {| eth_connected := fold_left link_after events (eth_connected g) |}.
Proof.
  induction events as [| event events IH]; intros [up] w; cbn -[NetworkEvent];
    [reflexivity |].
  rewrite (run_bind_returned W h _ _ _ _ w _ (NetworkEvent_outcome event _ w)).
  cbn [outcome]. rewrite IH. reflexivity.
Qed.
End Batches.

Lemma link_after_quiet (events : list WiFiEvent_t) (up : bool) :
  forallb (fun e => negb (writes_flag e)) events = true ->
  fold_left link_after events up = up.
Proof.
  revert up. induction events as [| e events IH]; intros up Hq; [reflexivity |].
  cbn in Hq. apply andb_prop in Hq. destruct Hq as [He Hq].
  cbn [fold_left]. rewrite IH by exact Hq.
  destruct e; cbn in *; congruence.
Qed.

(** X8. Of a batch of network events handed to the observer, only the
    last one that is an address acquisition, a disconnect or a stop
    decides [eth_connected]: the flag is set if that event is the
    acquisition and cleared otherwise, whatever came before it. A batch
    with no such event leaves the flag as it was. *)
Theorem dispatch_last_link_event_wins :
  forall (W : Type) (h : Handler W) (w : W) (g : Globals),
    (forall events : list WiFiEvent_t,
        forallb (fun e => negb (writes_flag e)) events = true ->
        outcome (run h (dispatch events g) w) = Returned g) /\
    (forall (before after : list WiFiEvent_t) (event : WiFiEvent_t),
        writes_flag event = true ->
        forallb (fun e => negb (writes_flag e)) after = true ->
        outcome (run h (dispatch (before ++ event :: after) g) w) =
        Returned {| eth_connected :=
                     match event with
                     | ARDUINO_EVENT_ETH_GOT_IP => true
                     | _ => false
                     end |}).
Proof.
  intros W h w g. split.
  - intros events Hq. rewrite dispatch_outcome, link_after_quiet by exact Hq.
    destruct g; reflexivity.
  - intros before after event He Hq.
    rewrite dispatch_outcome, fold_left_app. cbn [fold_left].
    rewrite link_after_quiet by exact Hq.
    destruct event; cbn in *; try discriminate; reflexivity.
Qed.

Lemma dispatch_last_link_event_wins_witness :
  outcome (run offline (dispatch [ARDUINO_EVENT_ETH_START; ARDUINO_EVENT_ETH_CONNECTED]
                          link_down) tt) = Returned link_down /\
  outcome (run offline
             (dispatch ([ARDUINO_EVENT_ETH_START; ARDUINO_EVENT_ETH_GOT_IP] ++
                        ARDUINO_EVENT_ETH_DISCONNECTED ::
                        [ARDUINO_EVENT_ETH_CONNECTED]) link_down) tt) =
  Returned {| eth_connected := false |}.
Proof.
  split.
  - exact (proj1 (dispatch_last_link_event_wins unit offline tt link_down)
             [ARDUINO_EVENT_ETH_START; ARDUINO_EVENT_ETH_CONNECTED] eq_refl).
  - exact (proj2 (dispatch_last_link_event_wins unit offline tt link_down)
             [ARDUINO_EVENT_ETH_START; ARDUINO_EVENT_ETH_GOT_IP]
             [ARDUINO_EVENT_ETH_CONNECTED] ARDUINO_EVENT_ETH_DISCONNECTED
             eq_refl eq_refl).
Defined.

(** ** The OTA progress printer *)

(** X9. The percentage the progress printer computes: with a total below
    100 the divisor [total / 100] is zero and the division has no value;
    with a total of at least 100 and [progress <= total] the value lies
    between 0 and 199, and it is at least 100 once [progress = total]. *)
Theorem onProgress_percent_range :
  forall progress total : Z,
    0 <= progress <= total ->
    (total < 100 -> onProgress_percent progress total = None) /\
    (100 <= total ->
     exists p, onProgress_percent progress total = Some p /\
               0 <= p <= 199 /\ (progress = total -> 100 <= p)).
Proof.
  intros progress total [Hp Hpt]. unfold onProgress_percent. cbn zeta. split.
  - intro Hsmall. rewrite Z.div_small by lia. reflexivity.
  - intro Hbig.
    assert (Hq : 1 <= total / 100) by (apply Z.div_le_lower_bound; lia).
    replace (total / 100 =? 0) with false by (symmetry; apply Z.eqb_neq; lia).
    eexists. split; [reflexivity |].
    pose proof (Z.mul_div_le total 100 ltac:(lia)) as Hlo.
    pose proof (Z.mul_succ_div_gt total 100 ltac:(lia)) as Hhi.
    repeat split.
    + apply Z.div_pos; lia.
    + apply Z.lt_succ_r. apply Z.div_lt_upper_bound; [lia |]. nia.
    + intro Heq. subst progress. apply Z.div_le_lower_bound; [lia |]. nia.
Qed.

Lemma onProgress_percent_range_witness :
  (199 < 100 -> onProgress_percent 199 199 = None) /\
  (100 <= 199 ->
   exists p, onProgress_percent 199 199 = Some p /\
             0 <= p <= 199 /\ (199 = 199 -> 100 <= p)).
Proof.
  apply (onProgress_percent_range 199 199). lia.
Defined.

(** The bound is met: a transfer of 199 bytes ends at 199 per cent, and a
    transfer of 99 bytes has no percentage at all. *)
Example onProgress_percent_199 :
  onProgress_percent 199 199 = Some 199 /\ onProgress_percent 50 99 = None.
Proof. split; reflexivity. Qed.

(** ** SetupMQTT and the boot sequence as a whole *)









Section Boot.
Variable W : Type.
Variable h : Handler W.

End Boot.


(** ** A message on its way through the loop *)

Section Delivery.
Variable W : Type.
Variable h : Handler W.

(** The console echo of a call whose length does not exceed the payload. *)
Lemma MqttCallback_echo (topic : string) (payload : list byte) (length : N) (w : W) :
  (N.to_nat length <= List.length payload)%nat ->
  echoed (trace (run h (MqttCallback topic payload length) w)) =
  firstn (N.to_nat length) payload.
Proof.
  intro Hlen. unfold MqttCallback. cbn -[print_payload].
  rewrite run_bind.
  match goal with
  | |- context [run h (print_payload payload 0 ?n) ?w0] =>
      destruct (print_payload_in_bounds W h payload n 0 w0) as (Ho & _ & Hp);
      [simpl; lia |];
      remember (run h (print_payload payload 0 n) w0) as rp eqn:Hrp; clear Hrp
  end.
  rewrite Ho. cbn -[print_payload]. rewrite echoed_app, Hp. cbn [skipn].
  unfold read_byte. destruct (nth_error payload 0) as [c |]; cbn.
  - destruct c; cbn; rewrite app_nil_r; reflexivity.
  - rewrite app_nil_r. reflexivity.
Qed.
End Delivery.

(** X12. Whatever command a message carries, the callback first echoes
    it to the console: the characters printed one by one are the first
    [length] bytes of the payload, in order, for every length that does
    not exceed the payload, the empty message included. *)
Theorem MqttCallback_echoes_payload :
  forall (W : Type) (h : Handler W) (w : W)
         (topic : string) (payload : list byte) (length : N),
    (N.to_nat length <= List.length payload)%nat ->
    echoed (trace (run h (MqttCallback topic payload length) w)) =
    firstn (N.to_nat length) payload.
Proof.
  intros W h w topic payload length Hlen.
  apply MqttCallback_echo. exact Hlen.
Qed.

Lemma MqttCallback_echoes_payload_witness :
  echoed (trace (run offline (MqttCallback MQTT_TOPIC payload_open 4) tt)) =
  firstn (N.to_nat 4) payload_open.
Proof.
  apply (MqttCallback_echoes_payload unit offline tt MQTT_TOPIC payload_open 4).
  cbn. lia.
Defined.

(** X13. A pass through [loop] during which the client, on a live
    session, delivers a well-formed message: the command is carried out
    between the client's loop call and the OTA handler, and
    [ConnectMqtt] is not entered. The command '9' restarts the device
    before the OTA handler is reached. *)
Theorem loop_delivers_command :
  forall (W : Type) (h : Handler W) (w : W) (m : Message) (c : byte),
    fst (h _ MqttLoop w) = (Some m, true) ->
    msg_length m = N.of_nat (List.length (msg_payload m)) ->
    nth_error (msg_payload m) 0 = Some c ->
    let r := run h loop w in
    match c with
    | "0"%byte =>
        effects (trace r) =
          [Ob MqttLoop (Some m, true); Ob (DigitalWrite GATE_GPIO LOW) tt;
           Ob OtaHandle tt] /\
        outcome r = Returned tt
    | "1"%byte =>
        effects (trace r) =
          [Ob MqttLoop (Some m, true); Ob (DigitalWrite GATE_GPIO HIGH) tt;
           Ob (Delay 750) tt; Ob (DigitalWrite GATE_GPIO LOW) tt; Ob OtaHandle tt] /\
        outcome r = Returned tt
    | "9"%byte =>
        effects (trace r) = [Ob MqttLoop (Some m, true)] /\
        outcome r = Stopped Restarted
    | _ =>
        effects (trace r) = [Ob MqttLoop (Some m, true); Ob OtaHandle tt] /\
        outcome r = Returned tt
    end.
Proof.
  intros W h w m c Hm Hlen Hc r. subst r.
  unfold loop, hMqttClient_loop. cbn -[MqttCallback]. rewrite Hm.
  cbn -[MqttCallback]. rewrite !run_bind.
  match goal with
  | |- context [run h (MqttCallback ?a ?b ?l) ?w'] =>
      destruct (MqttCallback_first_byte W h a b l c w' Hlen Hc) as [_ H];
      remember (run h (MqttCallback a b l) w') as rc eqn:Hrc; clear Hrc
  end.
  pose proof (f_equal fst H) as He. pose proof (f_equal snd H) as Ho.
  cbn [fst snd] in He, Ho. clear H.
  assert (Hcases : (c = "9"%byte /\ outcome rc = Stopped Restarted /\ effects (trace rc) = []) \/
                   (c <> "9"%byte /\ outcome rc = Returned tt)).
  { rewrite Ho, He. clear. destruct c;
      first [ left; repeat split; reflexivity
            | right; split; [discriminate | reflexivity] ]. }
  destruct Hcases as [(Hc9 & Hstop & He9) | (Hn9 & Hret)].
  - subst c. rewrite Hstop. cbn. unfold effects in *. cbn. rewrite He9.
    split; reflexivity.
  - rewrite Hret. cbn.
    rewrite (unit_eq_tt (fst (h unit OtaHandle _))).
    rewrite app_nil_r.
    change (Ob MqttLoop (Some m, true) :: trace rc ++ [Ob OtaHandle tt])
      with ([Ob MqttLoop (Some m, true)] ++ trace rc ++ [Ob OtaHandle tt]).
    rewrite !effects_app, He. clear - Hn9.
    destruct c; first [ contradiction Hn9; reflexivity | split; reflexivity ].
Qed.

Lemma loop_delivers_command_witness :
  let r := run (delivering (mkMessage MQTT_TOPIC payload_1 1)) loop tt in
  effects (trace r) =
    [Ob MqttLoop (Some (mkMessage MQTT_TOPIC payload_1 1), true);
     Ob (DigitalWrite GATE_GPIO HIGH) tt;
     Ob (Delay 750) tt; Ob (DigitalWrite GATE_GPIO LOW) tt; Ob OtaHandle tt] /\
  outcome r = Returned tt.
Proof.
  exact (loop_delivers_command unit (delivering (mkMessage MQTT_TOPIC payload_1 1)) tt
           (mkMessage MQTT_TOPIC payload_1 1) "1"%byte eq_refl eq_refl eq_refl).
Defined.
